(** * WeChat conversation analysis: the two upload-and-results views

    A shallow embedding of the client code of the chat-analysis web
    application:

    - [frontend/src/config.js], [frontend/src/main.js] and
      [frontend/src/views/HomeView.vue] (Vue 2 / Element UI), module
      [Frontend];
    - [frontend-v3/src/views/HomeView.vue] and
      [frontend-v3/src/services/api.ts] (Vue 3 / Element Plus), module
      [FrontendV3].

    The methods of a view mutate the component's reactive data and call
    into the browser (notifications, [console.error], [window.open]); they
    are written in a small state monad over a [World] that holds the
    reactive data, the base URL of the HTTP client and the list of effects
    performed so far.  The template fragments the properties speak about
    are functions of the [World]. *)

From Stdlib Require Import ZArith String Ascii List Bool Lia.
From Stdlib Require Import Floats.SpecFloat DecimalString.
Import ListNotations.
Local Open Scope string_scope.

Set Implicit Arguments.

(* ================================================================== *)
(** ** JavaScript values *)
(* ================================================================== *)

(** A field of a JSON payload, or a reactive cell initialised with
    [null]: the field can be missing ([undefined]), [null], or hold a
    value of the shape the data model gives it. *)
Inductive nullable (A : Type) : Type :=
| undefined
| null
| val (a : A).
Arguments undefined {A}.
Arguments null {A}.

(** ToBoolean on the values of a given shape. *)
Class Truthy (A : Type) := to_boolean : A -> bool.

(** The empty string is the only falsy string. *)
#[export] Instance Truthy_string : Truthy string :=
  fun s => negb (s =? "").

#[export] Instance Truthy_bool : Truthy bool := fun b => b.

Module Js.

(** ToBoolean: [undefined] and [null] are falsy. *)
Definition truthy {A} `{Truthy A} (v : nullable A) : bool :=
  match v with
  | undefined | null => false
  | val a => to_boolean a
  end.

(** [a || b]: the left operand when it is truthy, the right one
    otherwise. *)
Definition or {A} `{Truthy A} (a b : nullable A) : nullable A :=
  if truthy a then a else b.

(** [a || lit] with a literal of the field's shape on the right. *)
Definition or_else {A} `{Truthy A} (a : nullable A) (lit : A) : A :=
  match a with
  | val x => if to_boolean x then x else lit
  | _ => lit
  end.

(** ToString, as applied by [+] and by template literals. *)
Definition to_string (v : nullable string) : string :=
  match v with
  | undefined => "undefined"
  | null => "null"
  | val s => s
  end.

(** [String.prototype.endsWith(searchString)] with the default end
    position.  The search strings of this program are ASCII, for which
    the test on code units and the test on bytes agree. *)
Definition endsWith (s searchString : string) : bool :=
  let len := String.length s in
  let searchLength := String.length searchString in
  if (searchLength <=? len)%nat
  then substring (len - searchLength) searchLength s =? searchString
  else false.

(** *** Numbers: IEEE 754 binary64 *)

Definition number : Type := spec_float.
Definition prec : Z := 53.
Definition emax : Z := 1024.

(** The Number nearest to an integer literal. *)
Definition of_Z (z : Z) : number := binary_normalize prec emax z 0 false.

(** The [/] operator on Numbers. *)
Definition div (x y : number) : number := SFdiv prec emax x y.

(** Decimal digits of a natural number; ["0"] for zero. *)
Definition digits (n : N) : string := NilZero.string_of_uint (N.to_uint n).

Fixpoint zeros (k : nat) : string :=
  match k with
  | O => ""
  | S k' => String "0" (zeros k')
  end.

(** Steps 11.b and 11.c of [Number.prototype.toFixed]: the digits of
    [n], padded on the left to [f + 1] digits, with a point before the
    last [f] of them. *)
Definition fixed_point (n : N) (f : nat) : string :=
  let m := digits n in
  match f with
  | O => m
  | S _ =>
      let k := String.length m in
      let m' := if (k <=? f)%nat then zeros (f + 1 - k) ++ m else m in
      let k' := String.length m' in
      substring 0 (k' - f) m' ++ "." ++ substring (k' - f) f m'
  end.

(** The integer [n] for which [n / 10^f] is nearest to [m * 2^e], the
    larger one of two nearest. *)
Definition nearest_scaled (m : positive) (e : Z) (f : nat) : Z :=
  let scaled := (Zpos m * 10 ^ Z.of_nat f)%Z in
  match e with
  | Zneg p => ((2 * scaled + 2 ^ Zpos p) / 2 ^ (Zpos p + 1))%Z
  | _ => (scaled * 2 ^ e)%Z
  end.

(** Whether [m * 2^e >= 10^21]. *)
Definition at_least_1e21 (m : positive) (e : Z) : bool :=
  match e with
  | Zneg p => (10 ^ 21 * 2 ^ Zpos p <=? Zpos m)%Z
  | _ => (10 ^ 21 <=? Zpos m * 2 ^ e)%Z
  end.

Section ToFixed.

(** [Number::toString] is needed by [toFixed] only for magnitudes of
    at least 10^21, which it prints in exponent notation; it is taken
    as a parameter. *)
Variable number_to_string : number -> string.

(** [Number.prototype.toFixed(f)] for [0 <= f <= 100]. *)
Definition toFixed (x : number) (f : nat) : string :=
  match x with
  | S754_nan => "NaN"
  | S754_infinity false => "Infinity"
  | S754_infinity true => "-Infinity"
  | S754_zero _ => fixed_point 0 f
  | S754_finite sign m e =>
      let s := if sign then "-" else "" in
      if at_least_1e21 m e
      then s ++ number_to_string (S754_finite false m e)
      else s ++ fixed_point (Z.to_N (nearest_scaled m e f)) f
  end.

End ToFixed.

(** [a && f(a)] for an [a] that is an object when it is there: the
    missing or [null] [a] itself, or what [f] reads from the object. *)
Definition and_then {A B} (a : nullable A) (f : A -> nullable B) : nullable B :=
  match a with
  | undefined => undefined
  | null => null
  | val x => f x
  end.

(** [a?.f]: [undefined] for a missing or [null] [a]. *)
Definition chain {A B} (a : nullable A) (f : A -> nullable B) : nullable B :=
  match a with
  | val x => f x
  | _ => undefined
  end.

End Js.


(* ================================================================== *)
(** ** The data model: the response of the upload endpoint *)
(* ================================================================== *)

(** [data.time_analysis]: dates, counts and chart paths. *)
Module TimeAnalysis.
Record t : Type := make {
  first_date : string;
  last_date : string;
  total_days : Js.number;
  total_messages : Js.number;
  monthly_chart : nullable string;
  hourly_chart : nullable string
}.
End TimeAnalysis.

(** [data.word_cloud]: paths of the word-cloud frames. *)
Module WordCloud.
Record t : Type := make {
  both : nullable string;
  sender : nullable string;
  receiver : nullable string;
  french : nullable string
}.
End WordCloud.

(** [data]. *)
Module AnalysisData.
Record t : Type := make {
  time_analysis : TimeAnalysis.t;
  calendar_heatmap : nullable string;
  word_cloud : WordCloud.t
}.
End AnalysisData.

(** [emoji_clouds] and [emoji_symbol_cloud]. *)
Module EmojiClouds.
Record t : Type := make {
  sender : nullable string;
  receiver : nullable string
}.
End EmojiClouds.

(** [sentiment]. *)
Module Sentiment.
Record t : Type := make {
  radar_chart : nullable string;
  summary : nullable string
}.
End Sentiment.

(** The parsed JSON body handed to [handleUploadSuccess].  The views take
    it as an untyped object; its fields are given the shapes of the data
    model, each of them possibly missing or [null]. *)
Module Response.
Record t : Type := make {
  success : nullable bool;
  data : nullable AnalysisData.t;
  sentiment : nullable Sentiment.t;
  emoji_clouds : nullable EmojiClouds.t;
  emoji_symbol_cloud : nullable EmojiClouds.t;
  report_url : nullable string;
  error : nullable string
}.
End Response.

(** Objects are truthy. *)
#[export] Instance Truthy_AnalysisData : Truthy AnalysisData.t := fun _ => true.
#[export] Instance Truthy_EmojiClouds : Truthy EmojiClouds.t := fun _ => true.
#[export] Instance Truthy_Sentiment : Truthy Sentiment.t := fun _ => true.

(** The [File] offered to the upload control: its MIME type and name. *)
Module RawFile.
Record t : Type := make {
  type : string;
  name : string
}.
End RawFile.

(* ================================================================== *)
(** ** Reactive data, effects and the monad of the methods *)
(* ================================================================== *)

(** The reactive data of a view: [data()] of the Vue 2 component (whose
    constant [uploadHeaders], an empty object, is left out), the [ref]s of
    the Vue 3 one. *)
Record ViewState : Type := {
  loading : bool;
  analysisResults : nullable AnalysisData.t;
  sentimentResults : nullable Sentiment.t;
  emojiCloudData : nullable EmojiClouds.t;
  reportUrl : nullable string
}.

(** What a method does to the outside. *)
Inductive effect : Type :=
| MessageError (text : string)            (* [$message.error], [ElMessage.error] *)
| MessageSuccess (text : string)          (* [$message.success], [ElMessage.success] *)
| ConsoleError (label err : string)       (* [console.error(label, err)] *)
| WindowOpen (url target : string)        (* [window.open(url, target)] *)
| UploadRequest (action : string) (file : RawFile.t).
                                          (* the multipart POST of the upload control *)

(** [baseURL] is [defaults.baseURL] of the HTTP client the view reads;
    [effects] lists the effects performed, oldest first. *)
Record World : Type := {
  baseURL : string;
  view : ViewState;
  effects : list effect
}.

Definition M (A : Type) : Type := World -> A * World.

Definition ret {A} (a : A) : M A := fun w => (a, w).

Definition bind {A B} (m : M A) (k : A -> M B) : M B :=
  fun w => let (a, w') := m w in k a w'.

Declare Scope method_scope.
Delimit Scope method_scope with method.
Notation "x <- m ;; k" := (bind m (fun x => k))
  (at level 61, m at next level, right associativity) : method_scope.
Notation "m ;; k" := (bind m (fun _ => k))
  (at level 61, right associativity) : method_scope.
Local Open Scope method_scope.

Definition read {A} (f : World -> A) : M A := fun w => (f w, w).

Definition update (f : ViewState -> ViewState) : M unit :=
  fun w => (tt, {| baseURL := baseURL w; view := f (view w); effects := effects w |}).

Definition perform (e : effect) : M unit :=
  fun w => (tt, {| baseURL := baseURL w; view := view w; effects := effects w ++ [e] |}).

(** *** Methods step by step

    The same methods with the worlds they pass through: every assignment
    and every effect is a step, and the world a step leaves is entered in
    a journal, oldest first. *)
Definition J (A : Type) : Type := World -> A * World * list World.

Definition jret {A} (a : A) : J A := fun w => (a, w, []).

Definition jbind {A B} (m : J A) (k : A -> J B) : J B :=
  fun w =>
    let '(a, w1, l1) := m w in
    let '(b, w2, l2) := k a w1 in
    (b, w2, (l1 ++ l2)%list).

(** One assignment or effect. *)
Definition step {A} (m : M A) : J A :=
  fun w => let (a, w') := m w in (a, w', [w']).

(** A stepwise method without its journal. *)
Definition erase {A} (m : J A) : M A :=
  fun w => let '(a, w', _) := m w in (a, w').

(** The worlds a stepwise method passes through from [w]. *)
Definition journal {A} (m : J A) (w : World) : list World := snd (m w).

Declare Scope journal_scope.
Delimit Scope journal_scope with journal.
Notation "x <- m ;; k" := (jbind m (fun x => k))
  (at level 61, m at next level, right associativity) : journal_scope.
Notation "m ;; k" := (jbind m (fun _ => k))
  (at level 61, right associativity) : journal_scope.

(** Assignments to the reactive cells. *)
Definition set_loading (b : bool) : M unit :=
  update (fun v => {| loading := b;
                      analysisResults := analysisResults v;
                      sentimentResults := sentimentResults v;
                      emojiCloudData := emojiCloudData v;
                      reportUrl := reportUrl v |}).

Definition set_analysisResults (x : nullable AnalysisData.t) : M unit :=
  update (fun v => {| loading := loading v;
                      analysisResults := x;
                      sentimentResults := sentimentResults v;
                      emojiCloudData := emojiCloudData v;
                      reportUrl := reportUrl v |}).

Definition set_sentimentResults (x : nullable Sentiment.t) : M unit :=
  update (fun v => {| loading := loading v;
                      analysisResults := analysisResults v;
                      sentimentResults := x;
                      emojiCloudData := emojiCloudData v;
                      reportUrl := reportUrl v |}).

Definition set_emojiCloudData (x : nullable EmojiClouds.t) : M unit :=
  update (fun v => {| loading := loading v;
                      analysisResults := analysisResults v;
                      sentimentResults := sentimentResults v;
                      emojiCloudData := x;
                      reportUrl := reportUrl v |}).

Definition set_reportUrl (x : nullable string) : M unit :=
  update (fun v => {| loading := loading v;
                      analysisResults := analysisResults v;
                      sentimentResults := sentimentResults v;
                      emojiCloudData := emojiCloudData v;
                      reportUrl := x |}).

(** The initial reactive data of both views. *)
Definition initial_view : ViewState :=
  {| loading := false;
     analysisResults := null;
     sentimentResults := null;
     emojiCloudData := null;
     reportUrl := null |}.

(** How the upload request of an accepted file ends: a response body
    handed to [on-success], or a failure handed to [on-error]. *)
Inductive outcome : Type :=
| Responded (response : Response.t)
| Failed (err : string).

(** The build environment: the variables set, with their values. *)
Definition Env : Type := list (string * string).

(** [process.env.NAME]. *)
Fixpoint getenv (env : Env) (name : string) : nullable string :=
  match env with
  | [] => undefined
  | (k, v) :: env' => if k =? name then val v else getenv env' name
  end.

(** One side of the emoji-cloud section. *)
Inductive side : Type := Sender | Receiver.

(** A rendered [<el-col>] of the emoji-cloud section: whose usage it
    shows, its heading, and the [src] of its frame. *)
Record EmojiPane : Type := {
  pane_side : side;
  pane_title : string;
  pane_src : string
}.

(** A labelled image or frame of the results block: a chart, a tab of
    the word clouds. *)
Record Frame : Type := {
  frame_label : string;
  frame_src : string
}.

(** The sentiment block as rendered: the [src] of the radar chart and the
    text of the summary. *)
Record SentimentPane : Type := {
  radar_src : string;
  summary_text : string
}.

(** What evaluating a guarded fragment of a template gives: nothing (its
    [v-if] is false), the fragment, or the TypeError of reading a property
    of [null] or [undefined]. *)
Inductive rendered (A : Type) : Type :=
| Absent
| Shown (a : A)
| TypeError.
Arguments Absent {A}.
Arguments TypeError {A}.

(** Text interpolation [{{ v }}] of a string that may be missing: nothing
    is printed for [null] and [undefined]. *)
Definition display (v : nullable string) : string :=
  match v with
  | val s => s
  | _ => ""
  end.

(** What happens to a mounted view: a file is offered to the upload
    control, an upload request ends, the download button is clicked. *)
Inductive ui_event : Type :=
| Offered (file : RawFile.t)
| Settled (o : outcome)
| DownloadClicked.

(** *** The connectivity probe *)

(** The body of the probe's response: [{message}]. *)
Module TestData.
Record t : Type := make {
  message : nullable string
}.
End TestData.

(** The body of an error response: [{error}]. *)
Module ErrorData.
Record t : Type := make {
  error : nullable string
}.
End ErrorData.

(** [error.response]. *)
Module ErrorResponse.
Record t : Type := make {
  data : nullable ErrorData.t
}.
End ErrorResponse.

(** What the awaited request rejects with, and what a [catch] receives:
    an error with a [message] and, when the server answered, a
    [response]. *)
Module RequestError.
Record t : Type := make {
  response : nullable ErrorResponse.t;
  message : nullable string
}.
End RequestError.

(** How [await client.get(...)] ends: a response with its parsed body, or
    a rejection. *)
Inductive probe_outcome : Type :=
| Resolved (data : nullable TestData.t)
| Rejected (error : RequestError.t).

(** What a probe does to the outside, in order. *)
Inductive probe_effect : Type :=
| Get (base url : string)                  (* [client.get(url)], [base] the client's base URL *)
| ConsoleLog (label : string) (data : nullable TestData.t)
| ConsoleErrorObject (label : string) (error : RequestError.t)
| Notify (e : effect).

(* ================================================================== *)
(** ** [frontend]: the Vue 2 view *)
(* ================================================================== *)

Module Frontend.

(** [config.js]:
    [process.env.VUE_APP_API_URL || 'http://localhost:8082']. *)
Definition API_BASE_URL (env : Env) : string :=
  Js.or_else (getenv env "VUE_APP_API_URL") "http://localhost:8082".

(** [data()] of the component. *)
Definition data : ViewState := initial_view.

(** [main.js] sets [axios.defaults.baseURL = config.API_BASE_URL] and
    mounts the application. *)
Definition main (env : Env) : World :=
  {| baseURL := API_BASE_URL env; view := data; effects := [] |}.

Definition beforeUpload (file : RawFile.t) : M bool :=
  let isCSV := (RawFile.type file =? "text/csv")
               || Js.endsWith (RawFile.name file) ".csv" in
  if negb isCSV then
    perform (MessageError "Only CSV files are allowed!") ;;
    ret false
  else
    set_loading true ;;
    ret true.

Definition handleUploadSuccess (response : Response.t) : M unit :=
  set_loading false ;;
  if Js.truthy (Response.success response) then
    set_analysisResults (Response.data response) ;;
    set_sentimentResults (Response.sentiment response) ;;
    set_emojiCloudData (Js.or (Response.emoji_clouds response)
                              (Response.emoji_symbol_cloud response)) ;;
    set_reportUrl (Response.report_url response) ;;
    perform (MessageSuccess "Analysis completed!")
  else
    perform (MessageError ("Analysis failed: "
                           ++ Js.or_else (Response.error response) "Unknown error")).

Definition handleUploadError (err : string) : M unit :=
  set_loading false ;;
  perform (ConsoleError "Upload error:" err) ;;
  perform (MessageError "Upload failed, please try again!").

Definition getImageUrl (path : nullable string) : M string :=
  if negb (Js.truthy path) then ret ""
  else
    base <- read baseURL ;;
    ret (base ++ "/" ++ Js.to_string path).

Definition getWordCloudUrl (path : nullable string) : M string :=
  if negb (Js.truthy path) then ret ""
  else
    base <- read baseURL ;;
    ret (base ++ "/" ++ Js.to_string path).

Definition downloadReport : M unit :=
  url <- read (fun w => reportUrl (view w)) ;;
  if Js.truthy url then
    base <- read baseURL ;;
    perform (WindowOpen (base ++ Js.to_string url) "_blank")
  else
    perform (MessageError "Report not available").

(** The [:action] of [<el-upload>]:
    [$http.defaults.baseURL + '/api/upload']. *)
Definition uploadAction : M string :=
  base <- read baseURL ;;
  ret (base ++ "/api/upload").

(** [<el-upload>] with [:before-upload], [:on-success] and [:on-error]:
    a file is posted to the action when [beforeUpload] returns [true],
    dropped when it returns [false]; the outcome of the request goes to
    one of the two handlers. *)
Definition upload (file : RawFile.t) : M unit :=
  accepted <- beforeUpload file ;;
  if accepted then
    action <- uploadAction ;;
    perform (UploadRequest action file)
  else ret tt.

Definition settle (o : outcome) : M unit :=
  match o with
  | Responded response => handleUploadSuccess response
  | Failed err => handleUploadError err
  end.

(** The template compiles to one render function, which draws the page
    as a whole.  Inside [<div v-if="analysisResults">] the sentiment block
    reads [sentimentResults.radar_chart] and [sentimentResults.summary]
    without a guard of its own: when results are stored without a
    sentiment object the read throws a TypeError, the render is abandoned
    and draws nothing, and the page stays as the previous render drew
    it. *)
Definition render_throws (w : World) : bool :=
  Js.truthy (analysisResults (view w))
  && match sentimentResults (view w) with
     | val _ => false
     | _ => true
     end.

(** The emoji-cloud row of the template.  It sits inside
    [<div v-if="analysisResults">]; its own guard is
    [emojiCloudData && (emojiCloudData.sender || emojiCloudData.receiver)],
    and each column has a [v-if] on its side.  [None]: the render draws
    no such row, because a guard is false or because the render
    throws. *)
Definition emojiCloudSection (w : World) : option (list EmojiPane) :=
  if render_throws w then None else
  if Js.truthy (analysisResults (view w)) then
    match emojiCloudData (view w) with
    | val e =>
        if Js.truthy (EmojiClouds.sender e) || Js.truthy (EmojiClouds.receiver e)
        then Some
               (((if Js.truthy (EmojiClouds.sender e)
                 then [{| pane_side := Sender;
                          pane_title := "Your Emoji Usage";
                          pane_src := fst (getWordCloudUrl (EmojiClouds.sender e) w) |}]
                 else [])
                ++
                (if Js.truthy (EmojiClouds.receiver e)
                 then [{| pane_side := Receiver;
                          pane_title := "Other Person's Emoji Usage";
                          pane_src := fst (getWordCloudUrl (EmojiClouds.receiver e) w) |}]
                 else []))%list)
        else None
    | _ => None
    end
  else None.

Section Template.
Variable number_to_string : Js.number -> string.

(** The "Daily average" paragraph, inside [<div v-if="analysisResults">]:
    [(total_messages / total_days).toFixed(2)] between its two
    pieces of text.  [None]: the render draws no such paragraph, because
    no results are stored or because the render throws. *)
Definition dailyAverage (w : World) : option string :=
  if render_throws w then None else
  match analysisResults (view w) with
  | val d =>
      let t := AnalysisData.time_analysis d in
      Some ("Daily average: "
            ++ Js.toFixed number_to_string
                 (Js.div (TimeAnalysis.total_messages t) (TimeAnalysis.total_days t)) 2
            ++ " messages/day")
  | _ => None
  end.
End Template.

(** The three charts of the time analysis, inside
    [<div v-if="analysisResults">]: each [<img>] is there whatever its
    path is.  [None]: the render draws no charts, because no results are
    stored or because the render throws (the page then keeps the charts
    of the previous render, if it drew any). *)
Definition chartImages (w : World) : option (list Frame) :=
  if render_throws w then None else
  match analysisResults (view w) with
  | val d =>
      let t := AnalysisData.time_analysis d in
      Some [ {| frame_label := "Monthly Messages";
                frame_src := fst (getImageUrl (TimeAnalysis.monthly_chart t) w) |};
             {| frame_label := "Hourly Messages";
                frame_src := fst (getImageUrl (TimeAnalysis.hourly_chart t) w) |};
             {| frame_label := "Chat Frequency Heatmap";
                frame_src := fst (getImageUrl (AnalysisData.calendar_heatmap d) w) |} ]
  | _ => None
  end.

(** The tabs of the word clouds, inside [<div v-if="analysisResults">]:
    three tabs without a guard, the French one under
    [v-if="analysisResults.word_cloud.french"].  [None]: the render draws
    no tabs, because no results are stored or because the render
    throws. *)
Definition wordCloudTabs (w : World) : option (list Frame) :=
  if render_throws w then None else
  match analysisResults (view w) with
  | val d =>
      let c := AnalysisData.word_cloud d in
      Some ([ {| frame_label := "Both";
                 frame_src := fst (getWordCloudUrl (WordCloud.both c) w) |};
              {| frame_label := "Mine";
                 frame_src := fst (getWordCloudUrl (WordCloud.sender c) w) |};
              {| frame_label := "Other";
                 frame_src := fst (getWordCloudUrl (WordCloud.receiver c) w) |} ]
            ++ (if Js.truthy (WordCloud.french c)
                then [ {| frame_label := "French";
                          frame_src := fst (getWordCloudUrl (WordCloud.french c) w) |} ]
                else []))%list
  | _ => None
  end.

(** The sentiment block, inside [<div v-if="analysisResults">] and
    without a guard of its own: it reads [sentimentResults.radar_chart]
    and [sentimentResults.summary].  It ends in [TypeError] exactly when
    [render_throws]. *)
Definition sentimentSection (w : World) : rendered SentimentPane :=
  if Js.truthy (analysisResults (view w)) then
    match sentimentResults (view w) with
    | val s =>
        Shown {| radar_src := fst (getImageUrl (Sentiment.radar_chart s) w);
                 summary_text := display (Sentiment.summary s) |}
    | _ => TypeError
    end
  else Absent.

(** The mounted view under one event, and under a sequence of them. *)
Definition dispatch (e : ui_event) : M unit :=
  match e with
  | Offered file => upload file
  | Settled o => settle o
  | DownloadClicked => downloadReport
  end.

Fixpoint session (es : list ui_event) : M unit :=
  match es with
  | [] => ret tt
  | e :: es' => dispatch e ;; session es'
  end.

(** [App.vue]. *)
Module App.
Section Probe.
(** The text of the TypeError the engine raises for reading a property
    of [null] or [undefined]. *)
Variable type_error_message : string.

(** [testBackend]: the request, then the [try] block on its response or
    the [catch] block on its rejection; a response without a body makes
    [response.data.message] throw inside the [try], after the
    [console.log]. *)
Definition testBackend (w : World) (o : probe_outcome) : list probe_effect :=
  let catch error :=
    [ ConsoleErrorObject "Failed to connect to backend:" error;
      Notify (MessageError
                ("Connection failed: "
                 ++ Js.to_string
                      (Js.or (Js.and_then
                                (Js.and_then (RequestError.response error)
                                             ErrorResponse.data)
                                ErrorData.error)
                             (RequestError.message error)))) ] in
  Get (baseURL w) "/api/test"
  :: match o with
     | Resolved data =>
         ConsoleLog "Backend response:" data
         :: match data with
            | val d =>
                [ Notify (MessageSuccess
                            ("Successfully connected to backend: "
                             ++ Js.to_string (TestData.message d))) ]
            | _ => catch (RequestError.make undefined (val type_error_message))
            end
     | Rejected error => catch error
     end.
End Probe.
End App.


(** The handlers of the upload, step by step. *)
Module Steps.

Definition beforeUpload (file : RawFile.t) : J bool :=
  (let isCSV := (RawFile.type file =? "text/csv")
                || Js.endsWith (RawFile.name file) ".csv" in
   if negb isCSV then
     step (perform (MessageError "Only CSV files are allowed!")) ;;
     jret false
   else
     step (set_loading true) ;;
     jret true)%journal.

Definition handleUploadSuccess (response : Response.t) : J unit :=
  (step (set_loading false) ;;
   if Js.truthy (Response.success response) then
     step (set_analysisResults (Response.data response)) ;;
     step (set_sentimentResults (Response.sentiment response)) ;;
     step (set_emojiCloudData (Js.or (Response.emoji_clouds response)
                                     (Response.emoji_symbol_cloud response))) ;;
     step (set_reportUrl (Response.report_url response)) ;;
     step (perform (MessageSuccess "Analysis completed!"))
   else
     step (perform (MessageError ("Analysis failed: "
                                  ++ Js.or_else (Response.error response)
                                       "Unknown error"))))%journal.

Definition handleUploadError (err : string) : J unit :=
  (step (set_loading false) ;;
   step (perform (ConsoleError "Upload error:" err)) ;;
   step (perform (MessageError "Upload failed, please try again!")))%journal.

End Steps.

End Frontend.

(* ================================================================== *)
(** ** [frontend-v3]: the Vue 3 view *)
(* ================================================================== *)

Module FrontendV3.

(** [services/api.ts]: the client exported as the central point of the
    API calls. *)
Module Api.
Definition apiClient_baseURL : string := "http://localhost:8082/api".

Section Probe.
(** The text of the TypeError the engine raises for reading a property
    of [null] or [undefined]. *)
Variable type_error_message : string.

(** [testBackendConnection]. *)
Definition testBackendConnection (o : probe_outcome) : list probe_effect :=
  let catch error :=
    [ ConsoleErrorObject "Failed to connect to backend:" error;
      Notify (MessageError
                ("Connection failed: "
                 ++ Js.to_string
                      (Js.or (Js.chain (Js.chain (RequestError.response error)
                                                 ErrorResponse.data)
                                       ErrorData.error)
                             (RequestError.message error)))) ] in
  Get apiClient_baseURL "/test"
  :: match o with
     | Resolved data =>
         ConsoleLog "Backend response:" data
         :: match data with
            | val d =>
                [ Notify (MessageSuccess
                            ("Successfully connected to backend: "
                             ++ Js.to_string (TestData.message d))) ]
            | _ => catch (RequestError.make undefined (val type_error_message))
            end
     | Rejected error => catch error
     end.
End Probe.
End Api.

(** [views/HomeView.vue]:
    [axios.create({ baseURL: 'http://localhost:8082' })]. *)
Definition apiClient_baseURL : string := "http://localhost:8082".

(** The view as mounted, in a given build environment. *)
Definition main (env : Env) : World :=
  {| baseURL := apiClient_baseURL; view := initial_view; effects := [] |}.

Definition beforeUpload (rawFile : RawFile.t) : M bool :=
  let isCSV := (RawFile.type rawFile =? "text/csv")
               || Js.endsWith (RawFile.name rawFile) ".csv" in
  if negb isCSV then
    perform (MessageError "Only CSV files are allowed!") ;;
    ret false
  else
    set_loading true ;;
    set_analysisResults null ;;
    set_sentimentResults null ;;
    set_emojiCloudData null ;;
    set_reportUrl null ;;
    ret true.

Definition handleUploadSuccess (response : Response.t) : M unit :=
  set_loading false ;;
  if Js.truthy (Response.success response) then
    set_analysisResults (Response.data response) ;;
    set_sentimentResults (Response.sentiment response) ;;
    set_emojiCloudData (Js.or (Response.emoji_clouds response)
                              (Response.emoji_symbol_cloud response)) ;;
    set_reportUrl (Response.report_url response) ;;
    perform (MessageSuccess "Analysis completed!")
  else
    perform (MessageError ("Analysis failed: "
                           ++ Js.or_else (Response.error response) "Unknown error")).

Definition handleUploadError (err : string) : M unit :=
  set_loading false ;;
  perform (ConsoleError "Upload error:" err) ;;
  perform (MessageError "Upload failed, please try again!").

Definition getImageUrl (path : nullable string) : M string :=
  if negb (Js.truthy path) then ret ""
  else
    base <- read baseURL ;;
    ret (base ++ "/" ++ Js.to_string path).

Definition getWordCloudUrl (path : nullable string) : M string :=
  if negb (Js.truthy path) then ret ""
  else
    base <- read baseURL ;;
    ret (base ++ "/" ++ Js.to_string path).

Definition downloadReport : M unit :=
  url <- read (fun w => reportUrl (view w)) ;;
  if Js.truthy url then
    base <- read baseURL ;;
    perform (WindowOpen (base ++ Js.to_string url) "_blank")
  else
    perform (MessageError "Report not available").

(** The computed [uploadActionUrl]:
    [`${apiClient.defaults.baseURL}/api/upload`]. *)
Definition uploadActionUrl : M string :=
  base <- read baseURL ;;
  ret (base ++ "/api/upload").

(** [<el-upload>], as in the Vue 2 view. *)
Definition upload (rawFile : RawFile.t) : M unit :=
  accepted <- beforeUpload rawFile ;;
  if accepted then
    action <- uploadActionUrl ;;
    perform (UploadRequest action rawFile)
  else ret tt.

Definition settle (o : outcome) : M unit :=
  match o with
  | Responded response => handleUploadSuccess response
  | Failed err => handleUploadError err
  end.

(** The emoji-cloud row, with the same three guards as in the Vue 2
    template. *)
Definition emojiCloudSection (w : World) : option (list EmojiPane) :=
  if Js.truthy (analysisResults (view w)) then
    match emojiCloudData (view w) with
    | val e =>
        if Js.truthy (EmojiClouds.sender e) || Js.truthy (EmojiClouds.receiver e)
        then Some
               (((if Js.truthy (EmojiClouds.sender e)
                 then [{| pane_side := Sender;
                          pane_title := "Your Emoji Usage";
                          pane_src := fst (getWordCloudUrl (EmojiClouds.sender e) w) |}]
                 else [])
                ++
                (if Js.truthy (EmojiClouds.receiver e)
                 then [{| pane_side := Receiver;
                          pane_title := "Other Person's Emoji Usage";
                          pane_src := fst (getWordCloudUrl (EmojiClouds.receiver e) w) |}]
                 else []))%list)
        else None
    | _ => None
    end
  else None.

Section Template.
Variable number_to_string : Js.number -> string.

(** The "Daily average" paragraph, as in the Vue 2 template. *)
Definition dailyAverage (w : World) : option string :=
  match analysisResults (view w) with
  | val d =>
      let t := AnalysisData.time_analysis d in
      Some ("Daily average: "
            ++ Js.toFixed number_to_string
                 (Js.div (TimeAnalysis.total_messages t) (TimeAnalysis.total_days t)) 2
            ++ " messages/day")
  | _ => None
  end.
End Template.

(** The three charts of the time analysis, inside
    [<div v-if="analysisResults">]: each [<img>] is there whatever its
    path is. *)
Definition chartImages (w : World) : option (list Frame) :=
  match analysisResults (view w) with
  | val d =>
      let t := AnalysisData.time_analysis d in
      Some [ {| frame_label := "Monthly Messages";
                frame_src := fst (getImageUrl (TimeAnalysis.monthly_chart t) w) |};
             {| frame_label := "Hourly Messages";
                frame_src := fst (getImageUrl (TimeAnalysis.hourly_chart t) w) |};
             {| frame_label := "Chat Frequency Heatmap";
                frame_src := fst (getImageUrl (AnalysisData.calendar_heatmap d) w) |} ]
  | _ => None
  end.

(** The tabs of the word clouds, inside [<div v-if="analysisResults">]:
    three tabs without a guard, the French one under
    [v-if="analysisResults.word_cloud.french"]. *)
Definition wordCloudTabs (w : World) : option (list Frame) :=
  match analysisResults (view w) with
  | val d =>
      let c := AnalysisData.word_cloud d in
      Some ([ {| frame_label := "Both";
                 frame_src := fst (getWordCloudUrl (WordCloud.both c) w) |};
              {| frame_label := "Mine";
                 frame_src := fst (getWordCloudUrl (WordCloud.sender c) w) |};
              {| frame_label := "Other";
                 frame_src := fst (getWordCloudUrl (WordCloud.receiver c) w) |} ]
            ++ (if Js.truthy (WordCloud.french c)
                then [ {| frame_label := "French";
                          frame_src := fst (getWordCloudUrl (WordCloud.french c) w) |} ]
                else []))%list
  | _ => None
  end.

(** The sentiment block, inside [<div v-if="analysisResults">] and under
    [v-if="sentimentResults"]. *)
Definition sentimentSection (w : World) : rendered SentimentPane :=
  if Js.truthy (analysisResults (view w)) then
    match sentimentResults (view w) with
    | val s =>
        Shown {| radar_src := fst (getImageUrl (Sentiment.radar_chart s) w);
                 summary_text := display (Sentiment.summary s) |}
    | _ => Absent
    end
  else Absent.

(** The mounted view under one event, and under a sequence of them. *)
Definition dispatch (e : ui_event) : M unit :=
  match e with
  | Offered file => upload file
  | Settled o => settle o
  | DownloadClicked => downloadReport
  end.

Fixpoint session (es : list ui_event) : M unit :=
  match es with
  | [] => ret tt
  | e :: es' => dispatch e ;; session es'
  end.

Section Probe.
(** The text of the TypeError the engine raises for reading a property
    of [null] or [undefined]. *)
Variable type_error_message : string.

(** [testBackend] of the view: the request, then the [try] block on its
    response or the [catch] block on its rejection. *)
Definition testBackend (w : World) (o : probe_outcome) : list probe_effect :=
  let catch error :=
    [ Notify (MessageError
                ("Connection failed: "
                 ++ Js.to_string
                      (Js.or (Js.chain (Js.chain (RequestError.response error)
                                                 ErrorResponse.data)
                                       ErrorData.error)
                             (RequestError.message error)))) ] in
  Get (baseURL w) "/api/test"
  :: match o with
     | Resolved data =>
         match data with
         | val d =>
             [ Notify (MessageSuccess
                         ("Successfully connected to backend: "
                          ++ Js.to_string (TestData.message d))) ]
         | _ => catch (RequestError.make undefined (val type_error_message))
         end
     | Rejected error => catch error
     end.
End Probe.

(** The handlers of the upload, step by step. *)
Module Steps.

Definition beforeUpload (rawFile : RawFile.t) : J bool :=
  (let isCSV := (RawFile.type rawFile =? "text/csv")
                || Js.endsWith (RawFile.name rawFile) ".csv" in
   if negb isCSV then
     step (perform (MessageError "Only CSV files are allowed!")) ;;
     jret false
   else
     step (set_loading true) ;;
     step (set_analysisResults null) ;;
     step (set_sentimentResults null) ;;
     step (set_emojiCloudData null) ;;
     step (set_reportUrl null) ;;
     jret true)%journal.

Definition handleUploadSuccess (response : Response.t) : J unit :=
  (step (set_loading false) ;;
   if Js.truthy (Response.success response) then
     step (set_analysisResults (Response.data response)) ;;
     step (set_sentimentResults (Response.sentiment response)) ;;
     step (set_emojiCloudData (Js.or (Response.emoji_clouds response)
                                     (Response.emoji_symbol_cloud response))) ;;
     step (set_reportUrl (Response.report_url response)) ;;
     step (perform (MessageSuccess "Analysis completed!"))
   else
     step (perform (MessageError ("Analysis failed: "
                                  ++ Js.or_else (Response.error response)
                                       "Unknown error"))))%journal.

Definition handleUploadError (err : string) : J unit :=
  (step (set_loading false) ;;
   step (perform (ConsoleError "Upload error:" err)) ;;
   step (perform (MessageError "Upload failed, please try again!")))%journal.

End Steps.

End FrontendV3.

(* ================================================================== *)
(** ** Example data *)
(* ================================================================== *)

Module Sample.

Definition time_analysis : TimeAnalysis.t :=
  TimeAnalysis.make "2024-01-01" "2024-01-10" (Js.of_Z 10) (Js.of_Z 25)
    (val "static/charts/monthly.png") (val "static/charts/hourly.png").

Definition word_cloud : WordCloud.t :=
  WordCloud.make (val "static/wc/both.html") (val "static/wc/sender.html")
    (val "static/wc/receiver.html") undefined.

Definition data : AnalysisData.t :=
  AnalysisData.make time_analysis (val "static/charts/heatmap.png") word_cloud.

Definition sentiment : Sentiment.t :=
  Sentiment.make (val "static/charts/radar.png") (val "Mostly positive.").

(** A day-less analysis: no message was dated. *)
Definition empty_data : AnalysisData.t :=
  AnalysisData.make
    (TimeAnalysis.make "" "" (Js.of_Z 0) (Js.of_Z 0) undefined undefined)
    undefined word_cloud.

Definition csv : RawFile.t := RawFile.make "text/csv" "chat.csv".
Definition csv_untyped : RawFile.t := RawFile.make "" "chat.csv".
Definition png : RawFile.t := RawFile.make "image/png" "photo.png".

(** A successful response with every section. *)
Definition ok : Response.t :=
  Response.make (val true) (val data) (val sentiment)
    (val (EmojiClouds.make (val "static/emoji/sender.html") undefined))
    undefined (val "/api/reports/report.pdf") undefined.

(** A successful response that carries its emoji clouds under
    [emoji_symbol_cloud] only. *)
Definition ok_symbol_cloud : Response.t :=
  Response.make (val true) (val data) (val sentiment)
    undefined
    (val (EmojiClouds.make (val "static/emoji/sender.html") undefined))
    (val "/api/reports/report.pdf") undefined.

(** A successful response without [sentiment]. *)
Definition ok_no_sentiment : Response.t :=
  Response.make (val true) (val data) undefined
    (val (EmojiClouds.make (val "static/emoji/sender.html") undefined))
    undefined (val "/api/reports/report.pdf") undefined.

(** A successful response without [data]. *)
Definition ok_no_data : Response.t :=
  Response.make (val true) null (val sentiment)
    (val (EmojiClouds.make (val "static/emoji/sender.html") undefined))
    undefined (val "/api/reports/report.pdf") undefined.

(** Failures reported by the backend, with and without a text. *)
Definition failed : Response.t :=
  Response.make (val false) undefined undefined undefined undefined undefined
    (val "No messages found").

Definition failed_silent : Response.t :=
  Response.make (val false) undefined undefined undefined undefined undefined
    undefined.

(** A view that shows the results of an earlier upload. *)
Definition showing (base : string) : World :=
  {| baseURL := base;
     view := {| loading := false;
                analysisResults := val data;
                sentimentResults := val sentiment;
                emojiCloudData := val (EmojiClouds.make (val "static/emoji/sender.html") undefined);
                reportUrl := val "/api/reports/report.pdf" |};
     effects := [] |}.

(** A view whose stored report path is the empty string. *)
Definition empty_report (base : string) : World :=
  {| baseURL := base;
     view := {| loading := false;
                analysisResults := val data;
                sentimentResults := val sentiment;
                emojiCloudData := null;
                reportUrl := val "" |};
     effects := [] |}.

(** Twenty-five messages on no day. *)
Definition no_days : AnalysisData.t :=
  AnalysisData.make
    (TimeAnalysis.make "" "" (Js.of_Z 0) (Js.of_Z 25) undefined undefined)
    undefined word_cloud.

(** A view that shows the given analysis. *)
Definition showing_data (base : string) (d : AnalysisData.t) : World :=
  {| baseURL := base;
     view := {| loading := false;
                analysisResults := val d;
                sentimentResults := val sentiment;
                emojiCloudData := null;
                reportUrl := null |};
     effects := [] |}.

Definition deployed : Env := [("VUE_APP_API_URL", "https://chat.example.org")].

End Sample.

(* ================================================================== *)
(** ** Vocabulary of the properties *)
(* ================================================================== *)

(** A file is a CSV for the views when its MIME type says so or its name
    ends in [.csv]. *)
Definition is_csv (file : RawFile.t) : Prop :=
  RawFile.type file = "text/csv" \/ exists p, RawFile.name file = p ++ ".csv".

(** The path an emoji object holds for a side. *)
Definition side_path (e : EmojiClouds.t) (s : side) : nullable string :=
  match s with
  | Sender => EmojiClouds.sender e
  | Receiver => EmojiClouds.receiver e
  end.

(** The world after one more effect. *)
Definition after_effect (w : World) (e : effect) : World :=
  {| baseURL := baseURL w; view := view w; effects := effects w ++ [e] |}.

(** The world with the loading flag set. *)
Definition with_loading (w : World) (b : bool) : World :=
  {| baseURL := baseURL w;
     view := {| loading := b;
                analysisResults := analysisResults (view w);
                sentimentResults := sentimentResults (view w);
                emojiCloudData := emojiCloudData (view w);
                reportUrl := reportUrl (view w) |};
     effects := effects w |}.

(** The world once a successful response has been stored: the four result
    cells hold the response's fields, with [emoji_symbol_cloud] standing
    in for a falsy [emoji_clouds]. *)
Definition stored (response : Response.t) (w : World) : World :=
  {| baseURL := baseURL w;
     view := {| loading := false;
                analysisResults := Response.data response;
                sentimentResults := Response.sentiment response;
                emojiCloudData := Js.or (Response.emoji_clouds response)
                                        (Response.emoji_symbol_cloud response);
                reportUrl := Response.report_url response |};
     effects := effects w ++ [MessageSuccess "Analysis completed!"] |}.

(** The sides of an emoji object whose path is truthy, sender first. *)
Definition present_sides (e : EmojiClouds.t) : list side :=
  filter (fun s => Js.truthy (side_path e s)) [Sender; Receiver].

(** The test both [beforeUpload]s make. *)
Definition is_csvb (file : RawFile.t) : bool :=
  (RawFile.type file =? "text/csv") || Js.endsWith (RawFile.name file) ".csv".

(** The upload requests of a log: action and file, oldest first. *)
Fixpoint posted (l : list effect) : list (string * RawFile.t) :=
  match l with
  | [] => []
  | UploadRequest action file :: l' => (action, file) :: posted l'
  | _ :: l' => posted l'
  end.

(** The browser tabs opened in a log: URL and target, oldest first. *)
Fixpoint opened (l : list effect) : list (string * string) :=
  match l with
  | [] => []
  | WindowOpen url target :: l' => (url, target) :: opened l'
  | _ :: l' => opened l'
  end.

(** The files offered in a sequence of events, oldest first. *)
Fixpoint offered (es : list ui_event) : list RawFile.t :=
  match es with
  | [] => []
  | Offered file :: es' => file :: offered es'
  | _ :: es' => offered es'
  end.

(** The notifications among the effects of a probe. *)
Fixpoint notifications (l : list probe_effect) : list effect :=
  match l with
  | [] => []
  | Notify e :: l' => e :: notifications l'
  | _ :: l' => notifications l'
  end.

(** The requests among the effects of a probe. *)
Fixpoint gets (l : list probe_effect) : list (string * string) :=
  match l with
  | [] => []
  | Get base url :: l' => (base, url) :: gets l'
  | _ :: l' => gets l'
  end.

(** No result is stored. *)
Definition blank (v : ViewState) : Prop :=
  analysisResults v = null /\ sentimentResults v = null /\
  emojiCloudData v = null /\ reportUrl v = null.

(** An upload that did not bring results: a transport failure, or a
    response whose [success] is falsy. *)
Definition fruitless (o : outcome) : Prop :=
  match o with
  | Failed _ => True
  | Responded response => Js.truthy (Response.success response) = false
  end.

(** The error text a server sent along, if it answered with one. *)
Definition server_error (error : RequestError.t) : nullable string :=
  match RequestError.response error with
  | val r =>
      match ErrorResponse.data r with
      | val d => ErrorData.error d
      | _ => undefined
      end
  | _ => undefined
  end.

(** What one event adds to the log of a view. *)
Definition step_log (w : World) (e : ui_event) (w' : World) : Prop :=
  baseURL w' = baseURL w /\
  exists new,
    effects w' = (effects w ++ new)%list /\
    posted new = (match e with
                  | Offered file =>
                      if is_csvb file then [(baseURL w ++ "/api/upload", file)] else []
                  | _ => []
                  end) /\
    Forall (fun o => snd o = "_blank" /\
                     exists u, u <> "" /\ fst o = baseURL w ++ u) (opened new).

(** What a sequence of events adds to the log of a view: the base URL is
    kept, the log is extended, the requests added are those of the
    offered files that pass the test, and the tabs added are new tabs on
    the base URL followed by a non-empty path. *)
Definition session_log (w : World) (es : list ui_event) (w' : World) : Prop :=
  baseURL w' = baseURL w /\
  exists new,
    effects w' = (effects w ++ new)%list /\
    posted new
    = map (fun file => (baseURL w ++ "/api/upload", file)) (filter is_csvb (offered es)) /\
    Forall (fun o => snd o = "_blank" /\
                     exists u, u <> "" /\ fst o = baseURL w ++ u) (opened new).

(** A source the views may give an image or a frame: none, or the base
    URL, ['/'] and a non-empty path. *)
Definition under_base (w : World) (src : string) : Prop :=
  src = "" \/ exists path, path <> "" /\ src = baseURL w ++ "/" ++ path.

(** A quotient that [toFixed] prints in fixed notation: a zero, or a
    finite number of magnitude below 10^21. *)
Definition fixed_range (q : Js.number) : Prop :=
  match q with
  | S754_zero _ => True
  | S754_finite _ m e => Js.at_least_1e21 m e = false
  | _ => False
  end.

(** A stepwise method whose first step sets the loading flag to [b] and
    changes nothing else, and whose later steps all leave the flag at
    [b]. *)
Definition starts_by_loading {A} (b : bool) (m : J A) (w : World) : Prop :=
  exists rest,
    journal m w = with_loading w b :: rest /\
    Forall (fun w' => loading (view w') = b) rest.

(* ================================================================== *)
(** ** Strings and truthiness *)
(* ================================================================== *)

Lemma length_app (a b : string) :
  String.length (a ++ b) = String.length a + String.length b.
Proof.
  induction a as [|c a IH]; simpl; [reflexivity | now rewrite IH].
Qed.

Lemma substring_after (p s : string) :
  substring (String.length p) (String.length s) (p ++ s) = s.
Proof.
  induction p as [|c p IH]; simpl.
  - induction s as [|c s IH]; simpl; [reflexivity | now rewrite IH].
  - exact IH.
Qed.

Lemma substring_cut (s : string) (n : nat) :
  n <= String.length s ->
  s = substring 0 n s ++ substring n (String.length s - n) s.
Proof.
  revert n; induction s as [|c s IH]; intros n Hn; simpl in *.
  - destruct n; [reflexivity | lia].
  - destruct n as [|n]; simpl.
    + f_equal. clear. induction s as [|d s IH]; simpl; [reflexivity | now rewrite <- IH].
    + f_equal. apply IH. lia.
Qed.

(** [endsWith] decides "is some string followed by the search string". *)
Lemma endsWith_iff (s suffix : string) :
  Js.endsWith s suffix = true <-> exists p, s = p ++ suffix.
Proof.
  unfold Js.endsWith. split.
  - destruct (Nat.leb_spec (String.length suffix) (String.length s)) as [Hle|Hgt];
      [|discriminate].
    intros H. apply String.eqb_eq in H.
    exists (substring 0 (String.length s - String.length suffix) s).
    assert (Hk : String.length s - String.length suffix <= String.length s) by lia.
    pose proof (substring_cut s Hk) as Hcut.
    replace (String.length s - (String.length s - String.length suffix))
      with (String.length suffix) in Hcut by lia.
    now rewrite H in Hcut.
  - intros [p ->]. rewrite length_app.
    replace (String.length suffix <=? String.length p + String.length suffix)%nat
      with true by (symmetry; apply Nat.leb_le; lia).
    replace (String.length p + String.length suffix - String.length suffix)
      with (String.length p) by lia.
    rewrite substring_after. apply String.eqb_refl.
Qed.

Lemma endsWith_false_iff (s suffix : string) :
  Js.endsWith s suffix = false <-> ~ exists p, s = p ++ suffix.
Proof.
  rewrite <- endsWith_iff. destruct (Js.endsWith s suffix); split; intros H;
    try reflexivity; try discriminate; try (intros H'; discriminate).
  now contradiction H.
Qed.

Lemma truthy_string_true (v : nullable string) :
  Js.truthy v = true <-> exists s, v = val s /\ s <> "".
Proof.
  destruct v as [| |s]; simpl; unfold to_boolean, Truthy_string.
  - split; [discriminate | intros (s & H & _); discriminate].
  - split; [discriminate | intros (s & H & _); discriminate].
  - destruct (String.eqb_spec s "") as [->|Hne]; simpl.
    + split; [discriminate | intros (s & H & Hs); inversion H; subst; now contradiction Hs].
    + split; [intros _; now exists s | reflexivity].
Qed.

Lemma truthy_string_false (v : nullable string) :
  Js.truthy v = false <-> v = undefined \/ v = null \/ v = val "".
Proof.
  destruct v as [| |s]; simpl; unfold to_boolean, Truthy_string.
  - split; auto.
  - split; auto.
  - destruct (String.eqb_spec s "") as [->|Hne]; simpl.
    + split; auto.
    + split; [discriminate|].
      intros [H|[H|H]]; try discriminate. inversion H; subst. now contradiction Hne.
Qed.

Lemma truthy_val_nonempty (s : string) : s <> "" -> Js.truthy (val s) = true.
Proof. intros H. apply truthy_string_true. now exists s. Qed.

Lemma is_csv_test (file : RawFile.t) :
  (RawFile.type file =? "text/csv") || Js.endsWith (RawFile.name file) ".csv" = true
  <-> is_csv file.
Proof.
  unfold is_csv. rewrite orb_true_iff, String.eqb_eq, endsWith_iff. reflexivity.
Qed.

Lemma not_csv_test (file : RawFile.t) :
  (RawFile.type file =? "text/csv") || Js.endsWith (RawFile.name file) ".csv" = false
  <-> RawFile.type file <> "text/csv" /\ ~ exists p, RawFile.name file = p ++ ".csv".
Proof.
  rewrite orb_false_iff, String.eqb_neq, endsWith_false_iff. reflexivity.
Qed.

(** Unfolding of the methods and of the monad. *)
Ltac run :=
  unfold Frontend.upload, FrontendV3.upload, Frontend.settle, FrontendV3.settle,
    Frontend.beforeUpload, FrontendV3.beforeUpload,
    Frontend.handleUploadSuccess, FrontendV3.handleUploadSuccess,
    Frontend.handleUploadError, FrontendV3.handleUploadError,
    Frontend.getImageUrl, FrontendV3.getImageUrl,
    Frontend.getWordCloudUrl, FrontendV3.getWordCloudUrl,
    Frontend.downloadReport, FrontendV3.downloadReport,
    Frontend.uploadAction, FrontendV3.uploadActionUrl,
    set_loading, set_analysisResults, set_sentimentResults,
    set_emojiCloudData, set_reportUrl, update, perform, read, bind, ret;
  cbn [fst snd view baseURL effects loading analysisResults sentimentResults
       emojiCloudData reportUrl negb].

(* ================================================================== *)
(** ** The upload control *)
(* ================================================================== *)

(** A file that is not a CSV: both views notify and return [false]. *)
Lemma beforeUpload_rejects (file : RawFile.t) (w : World) :
  ~ is_csv file ->
  Frontend.beforeUpload file w
  = (false, after_effect w (MessageError "Only CSV files are allowed!")) /\
  FrontendV3.beforeUpload file w
  = (false, after_effect w (MessageError "Only CSV files are allowed!")).
Proof.
  intros H. rewrite <- is_csv_test in H. apply not_true_is_false in H.
  run. rewrite H. split; reflexivity.
Qed.

(** A CSV: the Vue 2 view sets the loading flag and nothing else. *)
Lemma beforeUpload_accepts_v2 (file : RawFile.t) (w : World) :
  is_csv file ->
  Frontend.beforeUpload file w = (true, with_loading w true).
Proof.
  intros H. rewrite <- is_csv_test in H. run. rewrite H. reflexivity.
Qed.

(** A CSV: the Vue 3 view sets the loading flag and empties the four
    result cells. *)
Lemma beforeUpload_accepts_v3 (file : RawFile.t) (w : World) :
  is_csv file ->
  FrontendV3.beforeUpload file w
  = (true, {| baseURL := baseURL w;
              view := {| loading := true;
                         analysisResults := null;
                         sentimentResults := null;
                         emojiCloudData := null;
                         reportUrl := null |};
              effects := effects w |}).
Proof.
  intros H. rewrite <- is_csv_test in H. run. rewrite H. reflexivity.
Qed.

Lemma is_csv_dec (file : RawFile.t) : is_csv file \/ ~ is_csv file.
Proof.
  rewrite <- is_csv_test.
  destruct ((RawFile.type file =? "text/csv") || Js.endsWith (RawFile.name file) ".csv");
    [now left | right; discriminate].
Qed.

(** C1.  In both views a file offered to the upload control is rejected
    ([beforeUpload] returns [false]) exactly when its MIME type is not
    ['text/csv'] and its name does not end with ['.csv'].  On rejection
    [beforeUpload] returns [false] having shown the notification
    'Only CSV files are allowed!' and changed nothing else, and the upload
    control, run on that file, performs this one notification and issues
    no request. *)
Theorem C1_non_csv_rejected_without_request (file : RawFile.t) (w : World) :
  let not_csv := RawFile.type file <> "text/csv"
                 /\ ~ (exists p, RawFile.name file = p ++ ".csv") in
  let notified := after_effect w (MessageError "Only CSV files are allowed!") in
  (fst (Frontend.beforeUpload file w) = false <-> not_csv) /\
  (fst (FrontendV3.beforeUpload file w) = false <-> not_csv) /\
  (not_csv ->
     Frontend.beforeUpload file w = (false, notified) /\
     FrontendV3.beforeUpload file w = (false, notified) /\
     Frontend.upload file w = (tt, notified) /\
     FrontendV3.upload file w = (tt, notified) /\
     (forall action f,
        In (UploadRequest action f) (effects notified) ->
        In (UploadRequest action f) (effects w))).
Proof.
  cbv zeta.
  assert (Hnot : RawFile.type file <> "text/csv"
                 /\ ~ (exists p, RawFile.name file = p ++ ".csv") <-> ~ is_csv file).
  { unfold is_csv. tauto. }
  rewrite Hnot. split; [|split].
  - split.
    + intros Hret Hcsv.
      rewrite (beforeUpload_accepts_v2 w Hcsv) in Hret. discriminate.
    + intros Hn. now rewrite (proj1 (beforeUpload_rejects w Hn)).
  - split.
    + intros Hret Hcsv.
      rewrite (beforeUpload_accepts_v3 w Hcsv) in Hret. discriminate.
    + intros Hn. now rewrite (proj2 (beforeUpload_rejects w Hn)).
  - intros Hn. destruct (beforeUpload_rejects w Hn) as [H2 H3].
    split; [exact H2|]. split; [exact H3|]. split; [|split].
    + unfold Frontend.upload, bind. now rewrite H2.
    + unfold FrontendV3.upload, bind. now rewrite H3.
    + intros action f Hin. cbn in Hin. apply in_app_or in Hin.
      destruct Hin as [Hin|[Hin|[]]]; [exact Hin | discriminate].
Qed.

(** C1 at a picture offered to a freshly mounted view. *)
Lemma C1_non_csv_rejected_without_request_witness :
  Frontend.upload Sample.png (Frontend.main [])
  = (tt, after_effect (Frontend.main []) (MessageError "Only CSV files are allowed!")).
Proof.
  apply (C1_non_csv_rejected_without_request Sample.png (Frontend.main [])).
  split.
  - discriminate.
  - apply endsWith_false_iff. reflexivity.
Defined.

(** C2.  The views disagree on an accepted file.  Take a view that shows
    the results of an earlier upload and offer it [chat.csv] of type
    [text/csv]: both [beforeUpload]s return [true] with the loading flag
    set; the Vue 3 one has emptied [analysisResults], [sentimentResults],
    [emojiCloudData] and [reportUrl], the Vue 2 one has left all four as
    they were, so that the request is issued while the old results are
    still stored. *)
Theorem C2_vue2_beforeUpload_keeps_old_results :
  let w := Sample.showing "http://localhost:8082" in
  let v2 := Frontend.beforeUpload Sample.csv w in
  let v3 := FrontendV3.beforeUpload Sample.csv w in
  fst v2 = true /\ fst v3 = true /\
  loading (view (snd v2)) = true /\ loading (view (snd v3)) = true /\
  (analysisResults (view (snd v3)) = null /\
   sentimentResults (view (snd v3)) = null /\
   emojiCloudData (view (snd v3)) = null /\
   reportUrl (view (snd v3)) = null) /\
  (analysisResults (view (snd v2)) = val Sample.data /\
   sentimentResults (view (snd v2)) = val Sample.sentiment /\
   emojiCloudData (view (snd v2))
   = val (EmojiClouds.make (val "static/emoji/sender.html") undefined) /\
   reportUrl (view (snd v2)) = val "/api/reports/report.pdf") /\
  Frontend.upload Sample.csv w
  = (tt, after_effect (with_loading w true)
           (UploadRequest "http://localhost:8082/api/upload" Sample.csv)).
Proof.
  cbv zeta. repeat split; reflexivity.
Qed.

(* ================================================================== *)
(** ** URLs *)
(* ================================================================== *)

(** C3.  In both views [getImageUrl] and [getWordCloudUrl] return the
    base URL of the HTTP client, then ['/'], then the path, when the path
    is a non-empty string, and the empty string when the path is falsy
    (missing, [null] or the empty string); neither changes anything. *)
Theorem C3_image_and_word_cloud_urls (path : nullable string) (w : World) :
  (forall s, path = val s -> s <> "" ->
     Frontend.getImageUrl path w = (baseURL w ++ "/" ++ s, w) /\
     Frontend.getWordCloudUrl path w = (baseURL w ++ "/" ++ s, w) /\
     FrontendV3.getImageUrl path w = (baseURL w ++ "/" ++ s, w) /\
     FrontendV3.getWordCloudUrl path w = (baseURL w ++ "/" ++ s, w)) /\
  (Js.truthy path = false ->
     Frontend.getImageUrl path w = ("", w) /\
     Frontend.getWordCloudUrl path w = ("", w) /\
     FrontendV3.getImageUrl path w = ("", w) /\
     FrontendV3.getWordCloudUrl path w = ("", w)).
Proof.
  split.
  - intros s -> Hs. run. rewrite (truthy_val_nonempty Hs). cbn. repeat split.
  - intros Hf. run. rewrite Hf. cbn. repeat split.
Qed.

(** C3 at a chart path and at a missing one, in the deployed Vue 2
    application. *)
Lemma C3_image_and_word_cloud_urls_witness :
  Frontend.getImageUrl (val "static/charts/monthly.png") (Frontend.main Sample.deployed)
  = ("https://chat.example.org/static/charts/monthly.png", Frontend.main Sample.deployed)
  /\ FrontendV3.getWordCloudUrl undefined (FrontendV3.main [])
     = ("", FrontendV3.main []).
Proof.
  split.
  - apply (proj1 (C3_image_and_word_cloud_urls
                    (val "static/charts/monthly.png") (Frontend.main Sample.deployed))
             "static/charts/monthly.png").
    + reflexivity.
    + discriminate.
  - apply (proj2 (C3_image_and_word_cloud_urls undefined (FrontendV3.main []))).
    reflexivity.
Defined.

(** The falsy paths, spelled out. *)
Lemma falsy_path_urls (path : nullable string) (w : World) :
  path = undefined \/ path = null \/ path = val "" ->
  fst (Frontend.getImageUrl path w) = "" /\
  fst (FrontendV3.getImageUrl path w) = "".
Proof.
  intros H. apply truthy_string_false in H. run. rewrite H. split; reflexivity.
Qed.

(* ================================================================== *)
(** ** Report download *)
(* ================================================================== *)

(** C4, as stated, fails at the empty string: it is a [reportUrl] other
    than [null], yet both views show 'Report not available' and open no
    tab. *)
Lemma C4_counterexample :
  let w := Sample.empty_report "http://localhost:8082" in
  reportUrl (view w) = val "" /\
  reportUrl (view w) <> null /\
  Frontend.downloadReport w
  = (tt, after_effect w (MessageError "Report not available")) /\
  FrontendV3.downloadReport w
  = (tt, after_effect w (MessageError "Report not available")) /\
  ~ In (WindowOpen ("http://localhost:8082" ++ "") "_blank")
       (effects (snd (Frontend.downloadReport w))) /\
  ~ In (WindowOpen ("http://localhost:8082" ++ "") "_blank")
       (effects (snd (FrontendV3.downloadReport w))).
Proof.
  cbv zeta. repeat split; try reflexivity; try discriminate.
  - cbn. intros [H|[]]. discriminate.
  - cbn. intros [H|[]]. discriminate.
Qed.

(** C4, amended.  In both views [downloadReport] with a falsy [reportUrl]
    ([null], missing or the empty string) shows 'Report not available'
    and does nothing else, so no tab is opened; with a non-empty
    [reportUrl] it opens the base URL immediately followed by [reportUrl]
    in a new tab ([_blank]) and does nothing else. *)
Theorem C4_download_report (w : World) :
  (Js.truthy (reportUrl (view w)) = false ->
     Frontend.downloadReport w
     = (tt, after_effect w (MessageError "Report not available")) /\
     FrontendV3.downloadReport w
     = (tt, after_effect w (MessageError "Report not available"))) /\
  (forall u, reportUrl (view w) = val u -> u <> "" ->
     Frontend.downloadReport w
     = (tt, after_effect w (WindowOpen (baseURL w ++ u) "_blank")) /\
     FrontendV3.downloadReport w
     = (tt, after_effect w (WindowOpen (baseURL w ++ u) "_blank"))).
Proof.
  split.
  - intros Hf. run. rewrite Hf. split; reflexivity.
  - intros u Hu Hne. run. rewrite Hu, (truthy_val_nonempty Hne). split; reflexivity.
Qed.

(** C4 at a view without a report and at one that shows a report. *)
Lemma C4_download_report_witness :
  Frontend.downloadReport (Frontend.main [])
  = (tt, after_effect (Frontend.main []) (MessageError "Report not available"))
  /\ FrontendV3.downloadReport (Sample.showing "http://localhost:8082")
     = (tt, after_effect (Sample.showing "http://localhost:8082")
              (WindowOpen "http://localhost:8082/api/reports/report.pdf" "_blank")).
Proof.
  split.
  - apply (proj1 (C4_download_report (Frontend.main []))). reflexivity.
  - apply (proj2 (C4_download_report (Sample.showing "http://localhost:8082"))
             "/api/reports/report.pdf").
    + reflexivity.
    + discriminate.
Defined.

(* ================================================================== *)
(** ** The response handlers *)
(* ================================================================== *)

(** A response whose [success] is truthy is stored, by both views. *)
Lemma handleUploadSuccess_stores (response : Response.t) (w : World) :
  Js.truthy (Response.success response) = true ->
  Frontend.handleUploadSuccess response w = (tt, stored response w) /\
  FrontendV3.handleUploadSuccess response w = (tt, stored response w).
Proof.
  intros H. run. rewrite H. split; reflexivity.
Qed.

(** A response whose [success] is falsy only clears the loading flag and
    shows one error notification, in both views. *)
Lemma handleUploadSuccess_reports (response : Response.t) (w : World) :
  Js.truthy (Response.success response) = false ->
  let shown := MessageError ("Analysis failed: "
                             ++ Js.or_else (Response.error response) "Unknown error") in
  Frontend.handleUploadSuccess response w = (tt, after_effect (with_loading w false) shown) /\
  FrontendV3.handleUploadSuccess response w = (tt, after_effect (with_loading w false) shown).
Proof.
  intros H. run. rewrite H. split; reflexivity.
Qed.

(** Whether the Vue 2 render throws, in terms of the stored sentiment. *)
Lemma render_throws_iff (w : World) :
  Frontend.render_throws w = true
  <-> Js.truthy (analysisResults (view w)) = true
      /\ Js.truthy (sentimentResults (view w)) = false.
Proof.
  unfold Frontend.render_throws. rewrite andb_true_iff.
  destruct (sentimentResults (view w)) as [| |s]; cbn [Js.truthy];
    unfold to_boolean, Truthy_Sentiment;
    (split; intros [H1 H2]; split; trivial; discriminate).
Qed.

Lemma render_with_sentiment (w : World) (s : Sentiment.t) :
  sentimentResults (view w) = val s -> Frontend.render_throws w = false.
Proof.
  intros H. unfold Frontend.render_throws. rewrite H. apply andb_false_r.
Qed.

Lemma render_without_results (w : World) :
  Js.truthy (analysisResults (view w)) = false -> Frontend.render_throws w = false.
Proof.
  intros H. unfold Frontend.render_throws. now rewrite H.
Qed.

(** The Vue 2 render draws the emoji-cloud row of the Vue 3 template,
    unless it throws. *)
Lemma emojiCloudSection_vue2 (w : World) :
  Frontend.emojiCloudSection w
  = if Frontend.render_throws w then None else FrontendV3.emojiCloudSection w.
Proof. reflexivity. Qed.

(** The emoji-cloud row in terms of the two cells it reads. *)
Lemma emojiCloudSection_cases (w : World) :
  FrontendV3.emojiCloudSection w
  = if Js.truthy (analysisResults (view w)) then
      match emojiCloudData (view w) with
      | val e =>
          match present_sides e with
          | [] => None
          | sides =>
              Some (map (fun s =>
                           {| pane_side := s;
                              pane_title := match s with
                                            | Sender => "Your Emoji Usage"
                                            | Receiver => "Other Person's Emoji Usage"
                                            end;
                              pane_src := baseURL w ++ "/" ++ Js.to_string (side_path e s) |})
                      sides)
          end
      | _ => None
      end
    else None.
Proof.
  unfold FrontendV3.emojiCloudSection, present_sides.
  destruct (Js.truthy (analysisResults (view w))); [|reflexivity].
  destruct (emojiCloudData (view w)) as [| |e]; try reflexivity.
  cbn [filter side_path]. run.
  destruct (Js.truthy (EmojiClouds.sender e)), (Js.truthy (EmojiClouds.receiver e));
    reflexivity.
Qed.

(** The emoji-cloud row of the Vue 3 view once a response is stored. *)
Lemma emojiCloudSection_stored (response : Response.t) (w : World) :
  FrontendV3.emojiCloudSection (stored response w)
  = if Js.truthy (Response.data response) then
      match Js.or (Response.emoji_clouds response)
                  (Response.emoji_symbol_cloud response) with
      | val e =>
          match present_sides e with
          | [] => None
          | sides =>
              Some (map (fun s =>
                           {| pane_side := s;
                              pane_title := match s with
                                            | Sender => "Your Emoji Usage"
                                            | Receiver => "Other Person's Emoji Usage"
                                            end;
                              pane_src := baseURL w ++ "/" ++ Js.to_string (side_path e s) |})
                      sides)
          end
      | _ => None
      end
    else None.
Proof. rewrite emojiCloudSection_cases. reflexivity. Qed.




(** C6.  In both views a response whose [success] is falsy, [false]
    included, makes [handleUploadSuccess] show exactly one error
    notification: 'Analysis failed: ' followed by the response's [error]
    when that is a non-empty string, and by 'Unknown error' when [error]
    is missing (or [null], or empty).  The text shown therefore ends with
    the backend's error text or with 'Unknown error'. *)
Theorem C6_failure_message (response : Response.t) (w : World) :
  Js.truthy (Response.success response) = false ->
  exists msg,
    effects (snd (Frontend.handleUploadSuccess response w))
    = (effects w ++ [MessageError msg])%list /\
    effects (snd (FrontendV3.handleUploadSuccess response w))
    = (effects w ++ [MessageError msg])%list /\
    (forall e, Response.error response = val e -> e <> "" ->
       msg = "Analysis failed: " ++ e) /\
    (Js.truthy (Response.error response) = false ->
       msg = "Analysis failed: Unknown error") /\
    ((exists e, Response.error response = val e /\ e <> "" /\ Js.endsWith msg e = true)
     \/ Js.endsWith msg "Unknown error" = true).
Proof.
  intros Hfail.
  destruct (handleUploadSuccess_reports response w Hfail) as [H2 H3].
  cbv zeta in H2, H3. rewrite H2, H3.
  exists ("Analysis failed: " ++ Js.or_else (Response.error response) "Unknown error").
  split; [reflexivity|]. split; [reflexivity|].
  destruct (Response.error response) as [| |e]; cbn [Js.or_else].
  - repeat split; try reflexivity; try discriminate. now right.
  - repeat split; try reflexivity; try discriminate. now right.
  - unfold Js.truthy, to_boolean, Truthy_string.
    destruct (String.eqb_spec e "") as [->|Hne]; cbn [negb].
    + repeat split; try reflexivity.
      * intros e' He' Hne'. injection He' as <-. now contradiction Hne'.
      * now right.
    + repeat split; try discriminate.
      * intros e' He' _. now injection He' as <-.
      * left. exists e. repeat split; trivial.
        apply endsWith_iff. now exists "Analysis failed: ".
Qed.

(** C6 at a failure without an [error] field. *)
Lemma C6_failure_message_witness :
  exists msg,
    effects (snd (FrontendV3.handleUploadSuccess Sample.failed_silent (FrontendV3.main [])))
    = [MessageError msg]
    /\ msg = "Analysis failed: Unknown error".
Proof.
  destruct (C6_failure_message Sample.failed_silent (FrontendV3.main []) eq_refl)
    as (msg & _ & H3 & _ & Hdefault & _).
  exists msg. split.
  - exact H3.
  - apply Hdefault. reflexivity.
Defined.

(** Both error paths clear the loading flag. *)
Lemma settle_clears_loading (o : outcome) (w : World) :
  loading (view (snd (Frontend.settle o w))) = false /\
  loading (view (snd (FrontendV3.settle o w))) = false.
Proof.
  destruct o as [response|err]; run.
  - destruct (Js.truthy (Response.success response)); split; reflexivity.
  - split; reflexivity.
Qed.

(** The stepwise handlers are the handlers. *)
Lemma steps_erase (w : World) :
  (forall file,
     erase (Frontend.Steps.beforeUpload file) w = Frontend.beforeUpload file w /\
     erase (FrontendV3.Steps.beforeUpload file) w = FrontendV3.beforeUpload file w) /\
  (forall response,
     erase (Frontend.Steps.handleUploadSuccess response) w
     = Frontend.handleUploadSuccess response w /\
     erase (FrontendV3.Steps.handleUploadSuccess response) w
     = FrontendV3.handleUploadSuccess response w) /\
  (forall err,
     erase (Frontend.Steps.handleUploadError err) w = Frontend.handleUploadError err w /\
     erase (FrontendV3.Steps.handleUploadError err) w
     = FrontendV3.handleUploadError err w).
Proof.
  unfold erase, Frontend.Steps.beforeUpload, FrontendV3.Steps.beforeUpload,
    Frontend.Steps.handleUploadSuccess, FrontendV3.Steps.handleUploadSuccess,
    Frontend.Steps.handleUploadError, FrontendV3.Steps.handleUploadError,
    jbind, jret, step.
  run. split; [|split].
  - intros file.
    destruct ((RawFile.type file =? "text/csv") || Js.endsWith (RawFile.name file) ".csv");
      split; reflexivity.
  - intros response. destruct (Js.truthy (Response.success response)); split; reflexivity.
  - intros err. split; reflexivity.
Qed.

(** The journals of the two response handlers. *)
Lemma handlers_clear_loading_first (w : World) :
  (forall response,
     starts_by_loading false (Frontend.Steps.handleUploadSuccess response) w /\
     starts_by_loading false (FrontendV3.Steps.handleUploadSuccess response) w) /\
  (forall err,
     starts_by_loading false (Frontend.Steps.handleUploadError err) w /\
     starts_by_loading false (FrontendV3.Steps.handleUploadError err) w).
Proof.
  unfold starts_by_loading, journal,
    Frontend.Steps.handleUploadSuccess, FrontendV3.Steps.handleUploadSuccess,
    Frontend.Steps.handleUploadError, FrontendV3.Steps.handleUploadError,
    jbind, jret, step.
  run. split.
  - intros response. destruct (Js.truthy (Response.success response));
      split; (eexists; split; [reflexivity|]);
      repeat (apply Forall_cons; [reflexivity|]); apply Forall_nil.
  - intros err. split; (eexists; split; [reflexivity|]);
      repeat (apply Forall_cons; [reflexivity|]); apply Forall_nil.
Qed.

(** C7.  In both views, for a CSV file, [beforeUpload] sets the loading
    flag by its first step and leaves it set through every later step,
    and the upload control issues its one request from the state
    [beforeUpload] leaves, after [beforeUpload] has returned.  Whatever
    the outcome of the request, a response body (with [success] true,
    false or missing) handed to [handleUploadSuccess] or a transport
    failure handed to [handleUploadError], and whatever the state it
    arrives in, the first step of the handler clears the loading flag and
    changes nothing else, before any cell is written and before any
    notification or console line; the flag stays cleared through every
    later step, and is cleared when the handler returns. *)
Theorem C7_loading_flag (file : RawFile.t) (w : World) :
  (RawFile.type file = "text/csv" \/ exists p, RawFile.name file = p ++ ".csv") ->
  let w2 := snd (Frontend.beforeUpload file w) in
  let w3 := snd (FrontendV3.beforeUpload file w) in
  (loading (view w2) = true /\
   Frontend.upload file w
   = (tt, after_effect w2 (UploadRequest (baseURL w ++ "/api/upload") file))) /\
  (loading (view w3) = true /\
   FrontendV3.upload file w
   = (tt, after_effect w3 (UploadRequest (baseURL w ++ "/api/upload") file))) /\
  (starts_by_loading true (Frontend.Steps.beforeUpload file) w /\
   starts_by_loading true (FrontendV3.Steps.beforeUpload file) w /\
   erase (Frontend.Steps.beforeUpload file) w = Frontend.beforeUpload file w /\
   erase (FrontendV3.Steps.beforeUpload file) w = FrontendV3.beforeUpload file w) /\
  (forall (w' : World) (response : Response.t),
     loading (view (snd (Frontend.handleUploadSuccess response w'))) = false /\
     loading (view (snd (FrontendV3.handleUploadSuccess response w'))) = false /\
     starts_by_loading false (Frontend.Steps.handleUploadSuccess response) w' /\
     starts_by_loading false (FrontendV3.Steps.handleUploadSuccess response) w' /\
     erase (Frontend.Steps.handleUploadSuccess response) w'
     = Frontend.handleUploadSuccess response w' /\
     erase (FrontendV3.Steps.handleUploadSuccess response) w'
     = FrontendV3.handleUploadSuccess response w') /\
  (forall (w' : World) (err : string),
     loading (view (snd (Frontend.handleUploadError err w'))) = false /\
     loading (view (snd (FrontendV3.handleUploadError err w'))) = false /\
     starts_by_loading false (Frontend.Steps.handleUploadError err) w' /\
     starts_by_loading false (FrontendV3.Steps.handleUploadError err) w' /\
     erase (Frontend.Steps.handleUploadError err) w' = Frontend.handleUploadError err w' /\
     erase (FrontendV3.Steps.handleUploadError err) w'
     = FrontendV3.handleUploadError err w').
Proof.
  intros Hcsv. cbv zeta. fold (is_csv file) in Hcsv.
  split; [|split; [|split; [|split]]].
  - split.
    + now rewrite (beforeUpload_accepts_v2 w Hcsv).
    + unfold Frontend.upload, bind.
      rewrite (beforeUpload_accepts_v2 w Hcsv). reflexivity.
  - split.
    + now rewrite (beforeUpload_accepts_v3 w Hcsv).
    + unfold FrontendV3.upload, bind.
      rewrite (beforeUpload_accepts_v3 w Hcsv). reflexivity.
  - split; [|split; [|apply (proj1 (steps_erase w))]].
    + apply is_csv_test in Hcsv.
      unfold starts_by_loading, journal, Frontend.Steps.beforeUpload, jbind, jret, step.
      run. rewrite Hcsv. cbn. eexists. split; [reflexivity | apply Forall_nil].
    + apply is_csv_test in Hcsv.
      unfold starts_by_loading, journal, FrontendV3.Steps.beforeUpload, jbind, jret, step.
      run. rewrite Hcsv. cbn. eexists. split; [reflexivity|].
      repeat (apply Forall_cons; [reflexivity|]); apply Forall_nil.
  - intros w' response.
    destruct (settle_clears_loading (Responded response) w') as [H2 H3].
    destruct (proj1 (handlers_clear_loading_first w') response) as [S2 S3].
    destruct (proj1 (proj2 (steps_erase w')) response) as [E2 E3].
    repeat (split; [assumption|]). assumption.
  - intros w' err.
    destruct (settle_clears_loading (Failed err) w') as [H2 H3].
    destruct (proj2 (handlers_clear_loading_first w') err) as [S2 S3].
    destruct (proj2 (proj2 (steps_erase w')) err) as [E2 E3].
    repeat (split; [assumption|]). assumption.
Qed.

(** C7 at a file that is a CSV by its name only, then at a reported
    failure arriving in the loading state. *)
Lemma C7_loading_flag_witness :
  loading (view (snd (FrontendV3.beforeUpload Sample.csv_untyped (FrontendV3.main []))))
  = true
  /\ loading (view (snd (FrontendV3.handleUploadSuccess Sample.failed
                           (snd (FrontendV3.upload Sample.csv_untyped (FrontendV3.main []))))))
     = false
  /\ starts_by_loading false (FrontendV3.Steps.handleUploadSuccess Sample.failed)
       (snd (FrontendV3.upload Sample.csv_untyped (FrontendV3.main []))).
Proof.
  assert (Hcsv : RawFile.type Sample.csv_untyped = "text/csv"
                 \/ exists p, RawFile.name Sample.csv_untyped = p ++ ".csv").
  { right. apply endsWith_iff. reflexivity. }
  destruct (C7_loading_flag Sample.csv_untyped (FrontendV3.main []) Hcsv)
    as (_ & (Hload & _) & _ & Hdone & _).
  split; [exact Hload|]. split; apply Hdone.
Defined.

(** C9.  In both views a response whose [success] is falsy, [false]
    included, leaves [analysisResults], [sentimentResults],
    [emojiCloudData] and [reportUrl] as they were: the handler clears the
    loading flag, shows one error notification, and touches nothing
    else. *)
Theorem C9_failure_keeps_results (response : Response.t) (w : World) :
  Js.truthy (Response.success response) = false ->
  let w2 := snd (Frontend.handleUploadSuccess response w) in
  let w3 := snd (FrontendV3.handleUploadSuccess response w) in
  (analysisResults (view w2) = analysisResults (view w) /\
   sentimentResults (view w2) = sentimentResults (view w) /\
   emojiCloudData (view w2) = emojiCloudData (view w) /\
   reportUrl (view w2) = reportUrl (view w) /\
   loading (view w2) = false /\
   baseURL w2 = baseURL w /\
   exists msg, effects w2 = (effects w ++ [MessageError msg])%list) /\
  (analysisResults (view w3) = analysisResults (view w) /\
   sentimentResults (view w3) = sentimentResults (view w) /\
   emojiCloudData (view w3) = emojiCloudData (view w) /\
   reportUrl (view w3) = reportUrl (view w) /\
   loading (view w3) = false /\
   baseURL w3 = baseURL w /\
   exists msg, effects w3 = (effects w ++ [MessageError msg])%list).
Proof.
  intros Hfail. cbv zeta.
  destruct (handleUploadSuccess_reports response w Hfail) as [-> ->].
  cbn. split; repeat split; eauto.
Qed.

(** C9 at a reported failure arriving in a view that shows results. *)
Lemma C9_failure_keeps_results_witness :
  analysisResults
    (view (snd (Frontend.handleUploadSuccess Sample.failed
                  (Sample.showing "http://localhost:8082"))))
  = val Sample.data.
Proof.
  apply (C9_failure_keeps_results Sample.failed (Sample.showing "http://localhost:8082")).
  reflexivity.
Defined.

(* ================================================================== *)
(** ** The daily average *)
(* ================================================================== *)

(** A quotient by zero is not a number when the dividend is zero or not
    a number, and an infinity with the product of the signs otherwise. *)
Lemma div_by_zero (m : Js.number) (sd : bool) :
  Js.div m (S754_zero sd)
  = match m with
    | S754_nan | S754_zero _ => S754_nan
    | S754_infinity sm | S754_finite sm _ _ => S754_infinity (xorb sm sd)
    end.
Proof. destruct m; reflexivity. Qed.

(** The Vue 2 render prints the paragraphs, charts and tabs of the Vue 3
    template, unless it throws. *)
Lemma fragments_vue2 (number_to_string : Js.number -> string) (w : World) :
  Frontend.dailyAverage number_to_string w
  = (if Frontend.render_throws w then None
     else FrontendV3.dailyAverage number_to_string w) /\
  Frontend.chartImages w
  = (if Frontend.render_throws w then None else FrontendV3.chartImages w) /\
  Frontend.wordCloudTabs w
  = (if Frontend.render_throws w then None else FrontendV3.wordCloudTabs w).
Proof. repeat split. Qed.

(** Results without a sentiment object: the Vue 2 render throws. *)
Lemma render_throws_without_sentiment (w : World) (d : AnalysisData.t) :
  analysisResults (view w) = val d ->
  Js.truthy (sentimentResults (view w)) = false ->
  Frontend.render_throws w = true.
Proof.
  intros Hd Hs. apply render_throws_iff. split; [|exact Hs]. now rewrite Hd.
Qed.

(** C10.  Whenever the daily average is rendered it is the text of
    [(total_messages / total_days).toFixed(2)], whatever [total_days] is,
    and whether it is rendered does not depend on [total_days]: the
    Vue 3 view renders the paragraph for every stored analysis, the Vue 2
    view for every stored analysis that comes with a sentiment object
    (without one its render throws at the sentiment block and prints no
    paragraph).  For a zero [total_days] the division is carried out all
    the same: the quotient is NaN when [total_messages] is zero or NaN and
    an infinity otherwise, and the paragraph reads 'NaN', 'Infinity' or
    '-Infinity'. *)
Theorem C10_daily_average_divides_unguarded
    (number_to_string : Js.number -> string) (w : World) (d : AnalysisData.t) :
  analysisResults (view w) = val d ->
  let messages := TimeAnalysis.total_messages (AnalysisData.time_analysis d) in
  let days := TimeAnalysis.total_days (AnalysisData.time_analysis d) in
  let paragraph := "Daily average: "
                   ++ Js.toFixed number_to_string (Js.div messages days) 2
                   ++ " messages/day" in
  FrontendV3.dailyAverage number_to_string w = Some paragraph /\
  (forall s, sentimentResults (view w) = val s ->
     Frontend.dailyAverage number_to_string w = Some paragraph) /\
  (Js.truthy (sentimentResults (view w)) = false ->
     Frontend.dailyAverage number_to_string w = None) /\
  (forall sd, days = S754_zero sd ->
     let quotient :=
       match messages with
       | S754_nan | S754_zero _ => "NaN"
       | S754_infinity sm | S754_finite sm _ _ =>
           if xorb sm sd then "-Infinity" else "Infinity"
       end in
     FrontendV3.dailyAverage number_to_string w
     = Some ("Daily average: " ++ quotient ++ " messages/day") /\
     (forall s, sentimentResults (view w) = val s ->
        Frontend.dailyAverage number_to_string w
        = Some ("Daily average: " ++ quotient ++ " messages/day"))).
Proof.
  intros Hd. cbv zeta.
  rewrite (proj1 (fragments_vue2 number_to_string w)).
  assert (H3 : FrontendV3.dailyAverage number_to_string w
               = Some ("Daily average: "
                       ++ Js.toFixed number_to_string
                            (Js.div (TimeAnalysis.total_messages
                                       (AnalysisData.time_analysis d))
                                    (TimeAnalysis.total_days
                                       (AnalysisData.time_analysis d))) 2
                       ++ " messages/day")).
  { unfold FrontendV3.dailyAverage. now rewrite Hd. }
  rewrite H3. split; [reflexivity|]. split; [|split].
  - intros s Hs. now rewrite (render_with_sentiment w Hs).
  - intros Hs. now rewrite (render_throws_without_sentiment w Hd Hs).
  - intros sd Hz.
    assert (Hq : Js.toFixed number_to_string
                   (Js.div (TimeAnalysis.total_messages (AnalysisData.time_analysis d))
                           (TimeAnalysis.total_days (AnalysisData.time_analysis d))) 2
                 = match TimeAnalysis.total_messages (AnalysisData.time_analysis d) with
                   | S754_nan | S754_zero _ => "NaN"
                   | S754_infinity sm | S754_finite sm _ _ =>
                       if xorb sm sd then "-Infinity" else "Infinity"
                   end).
    { rewrite Hz, div_by_zero.
      destruct (TimeAnalysis.total_messages (AnalysisData.time_analysis d))
        as [sm|sm| |sm m e]; try reflexivity; destruct sm, sd; reflexivity. }
    rewrite Hq. split; [reflexivity|].
    intros s Hs. now rewrite (render_with_sentiment w Hs).
Qed.

(** C10 at twenty-five messages on no day, and at no message on no day. *)
Lemma C10_daily_average_divides_unguarded_witness :
  Frontend.dailyAverage (fun _ => "")
    (Sample.showing_data "http://localhost:8082" Sample.no_days)
  = Some "Daily average: Infinity messages/day"
  /\ FrontendV3.dailyAverage (fun _ => "")
       (Sample.showing_data "http://localhost:8082" Sample.empty_data)
     = Some "Daily average: NaN messages/day".
Proof.
  split.
  - apply (proj2 (proj2 (proj2 (proj2
             (@C10_daily_average_divides_unguarded (fun _ => "")
                (Sample.showing_data "http://localhost:8082" Sample.no_days)
                Sample.no_days eq_refl))) false eq_refl) Sample.sentiment).
    reflexivity.
  - apply (proj1 (proj2 (proj2 (proj2
             (@C10_daily_average_divides_unguarded (fun _ => "")
                (Sample.showing_data "http://localhost:8082" Sample.empty_data)
                Sample.empty_data eq_refl))) false eq_refl)).
Defined.

(** With days to divide by, the quotient is rounded to two decimals. *)
Example dailyAverage_sample :
  forall number_to_string,
    Frontend.dailyAverage number_to_string (Sample.showing "http://localhost:8082")
    = Some "Daily average: 2.50 messages/day".
Proof. reflexivity. Qed.

(* ================================================================== *)
(** ** The base URL *)
(* ================================================================== *)

(** [config.js]: the variable when it is set and not empty, the local
    address otherwise. *)
Lemma API_BASE_URL_from_env (env : Env) :
  (forall v, getenv env "VUE_APP_API_URL" = val v -> v <> "" ->
     Frontend.API_BASE_URL env = v) /\
  (Js.truthy (getenv env "VUE_APP_API_URL") = false ->
     Frontend.API_BASE_URL env = "http://localhost:8082").
Proof.
  unfold Frontend.API_BASE_URL. split.
  - intros v -> Hv. cbn. apply truthy_val_nonempty in Hv. cbn in Hv. now rewrite Hv.
  - destruct (getenv env "VUE_APP_API_URL") as [| |v]; try reflexivity.
    cbn. now intros ->.
Qed.

(** No method of either view changes the base URL of the client. *)
Lemma methods_keep_baseURL (w : World) :
  (forall file, baseURL (snd (Frontend.upload file w)) = baseURL w /\
                baseURL (snd (FrontendV3.upload file w)) = baseURL w) /\
  (forall o, baseURL (snd (Frontend.settle o w)) = baseURL w /\
             baseURL (snd (FrontendV3.settle o w)) = baseURL w) /\
  baseURL (snd (Frontend.downloadReport w)) = baseURL w /\
  baseURL (snd (FrontendV3.downloadReport w)) = baseURL w.
Proof.
  split; [|split].
  - intros file. run.
    destruct ((RawFile.type file =? "text/csv") || Js.endsWith (RawFile.name file) ".csv");
      split; reflexivity.
  - intros [response|err]; run.
    + destruct (Js.truthy (Response.success response)); split; reflexivity.
    + split; reflexivity.
  - run. destruct (Js.truthy (reportUrl (view w))); split; reflexivity.
Qed.

(** The Vue 3 view is mounted on the local address in every build
    environment. *)
Lemma vue3_base_url_constant (env : Env) :
  baseURL (FrontendV3.main env) = "http://localhost:8082".
Proof. reflexivity. Qed.

(** C8.  The base URL is an environment-backed setting in the Vue 2
    application only.  Build both applications with
    [VUE_APP_API_URL=https://chat.example.org]: the Vue 2 view posts to
    that backend, while the Vue 3 view still posts to, and loads its
    charts from, [http://localhost:8082]; and the client that
    [services/api.ts] exports as the central point of the API calls has
    yet another base URL, which the view does not use. *)
Theorem C8_vue3_base_url_ignores_environment :
  let env := Sample.deployed in
  baseURL (Frontend.main env) = "https://chat.example.org" /\
  fst (Frontend.uploadAction (Frontend.main env))
  = "https://chat.example.org/api/upload" /\
  baseURL (FrontendV3.main env) = "http://localhost:8082" /\
  fst (FrontendV3.uploadActionUrl (FrontendV3.main env))
  = "http://localhost:8082/api/upload" /\
  fst (FrontendV3.getImageUrl (val "static/charts/monthly.png") (FrontendV3.main env))
  = "http://localhost:8082/static/charts/monthly.png" /\
  FrontendV3.Api.apiClient_baseURL = "http://localhost:8082/api" /\
  FrontendV3.Api.apiClient_baseURL <> baseURL (FrontendV3.main env).
Proof.
  cbv zeta. repeat split; try reflexivity. discriminate.
Qed.

(* ================================================================== *)
(** ** Sequences of events *)
(* ================================================================== *)

Lemma posted_app (l1 l2 : list effect) :
  posted (l1 ++ l2) = (posted l1 ++ posted l2)%list.
Proof.
  induction l1 as [|e l1 IH]; [reflexivity|].
  destruct e; cbn; rewrite IH; reflexivity.
Qed.

Lemma opened_app (l1 l2 : list effect) :
  opened (l1 ++ l2) = (opened l1 ++ opened l2)%list.
Proof.
  induction l1 as [|e l1 IH]; [reflexivity|].
  destruct e; cbn; rewrite IH; reflexivity.
Qed.

Lemma dispatch_log (e : ui_event) (w : World) :
  step_log w e (snd (Frontend.dispatch e w)) /\
  step_log w e (snd (FrontendV3.dispatch e w)).
Proof.
  unfold step_log, Frontend.dispatch, FrontendV3.dispatch.
  destruct e as [file|[response|err]|]; run.
  - unfold is_csvb.
    destruct ((RawFile.type file =? "text/csv") || Js.endsWith (RawFile.name file) ".csv");
      cbn; (split; (split; [reflexivity|]; eexists; split; [reflexivity|];
                    split; [reflexivity | constructor])).
  - destruct (Js.truthy (Response.success response));
      cbn; (split; (split; [reflexivity|]; eexists; split; [reflexivity|];
                    split; [reflexivity | constructor])).
  - cbn. split;
      (split; [reflexivity|];
       exists [ConsoleError "Upload error:" err;
               MessageError "Upload failed, please try again!"];
       split; [now rewrite <- app_assoc | split; [reflexivity | constructor]]).
  - destruct (Js.truthy (reportUrl (view w))) eqn:Hurl; cbn.
    + apply truthy_string_true in Hurl. destruct Hurl as (u & Hu & Hne).
      rewrite Hu. cbn.
      split; (split; [reflexivity|]; eexists; split; [reflexivity|];
              split; [reflexivity|]; constructor; [|constructor];
              split; [reflexivity | now exists u]).
    + split; (split; [reflexivity|]; eexists; split; [reflexivity|];
              split; [reflexivity | constructor]).
Qed.

Lemma session_cons_v2 (e : ui_event) (es : list ui_event) (w : World) :
  Frontend.session (e :: es) w = Frontend.session es (snd (Frontend.dispatch e w)).
Proof.
  cbn [Frontend.session]. unfold bind. now destruct (Frontend.dispatch e w).
Qed.

Lemma session_cons_v3 (e : ui_event) (es : list ui_event) (w : World) :
  FrontendV3.session (e :: es) w = FrontendV3.session es (snd (FrontendV3.dispatch e w)).
Proof.
  cbn [FrontendV3.session]. unfold bind. now destruct (FrontendV3.dispatch e w).
Qed.

Lemma session_app_v2 (es1 es2 : list ui_event) (w : World) :
  Frontend.session (es1 ++ es2) w = Frontend.session es2 (snd (Frontend.session es1 w)).
Proof.
  revert w; induction es1 as [|e es1 IH]; intros w; [reflexivity|].
  rewrite <- app_comm_cons, !session_cons_v2. apply IH.
Qed.

Lemma session_app_v3 (es1 es2 : list ui_event) (w : World) :
  FrontendV3.session (es1 ++ es2) w
  = FrontendV3.session es2 (snd (FrontendV3.session es1 w)).
Proof.
  revert w; induction es1 as [|e es1 IH]; intros w; [reflexivity|].
  rewrite <- app_comm_cons, !session_cons_v3. apply IH.
Qed.

(** Steps compose: what a sequence of events adds to the log. *)
Lemma session_log_step (w w1 w' : World) (e : ui_event) (es : list ui_event) :
  step_log w e w1 -> session_log w1 es w' -> session_log w (e :: es) w'.
Proof.
  intros (Hb1 & new1 & He1 & Hp1 & Ho1) (Hb & new & He & Hp & Ho).
  rewrite Hb1 in *. split; [exact Hb|].
  exists (new1 ++ new)%list. split; [|split].
  - now rewrite He, He1, app_assoc.
  - rewrite posted_app, Hp1, Hp.
    destruct e as [file| |]; cbn [offered filter]; [|reflexivity..].
    destruct (is_csvb file); reflexivity.
  - rewrite opened_app. apply Forall_app. now split.
Qed.

(** X1.  Whatever is offered, answered and clicked, in whatever order, a
    view keeps the base URL of its client and only adds to what it has
    done.  The files it posts are exactly the offered files that pass the
    CSV test, once each, in the order offered, all to the base URL
    followed by [/api/upload]; every tab it opens is a new tab on the base
    URL followed by a non-empty report path. *)
Theorem session_posts_the_csv_offers (es : list ui_event) (w : World) :
  session_log w es (snd (Frontend.session es w)) /\
  session_log w es (snd (FrontendV3.session es w)).
Proof.
  revert w; induction es as [|e es IH]; intros w.
  - assert (Hnil : session_log w [] w).
    { split; [reflexivity|]. exists []. rewrite app_nil_r.
      repeat split; constructor. }
    split; exact Hnil.
  - rewrite session_cons_v2, session_cons_v3.
    destruct (dispatch_log e w) as [H2 H3]. split.
    + exact (session_log_step H2 (proj1 (IH _))).
    + exact (session_log_step H3 (proj2 (IH _))).
Qed.

(** Each event keeps the Vue 3 view blank while it loads. *)
Lemma dispatch_blank_while_loading (e : ui_event) (w : World) :
  (loading (view w) = true -> blank (view w)) ->
  loading (view (snd (FrontendV3.dispatch e w))) = true ->
  blank (view (snd (FrontendV3.dispatch e w))).
Proof.
  unfold FrontendV3.dispatch, blank. intros Hinv.
  destruct e as [file|[response|err]|]; run.
  - destruct ((RawFile.type file =? "text/csv") || Js.endsWith (RawFile.name file) ".csv");
      cbn; [repeat split | exact Hinv].
  - destruct (Js.truthy (Response.success response)); cbn; discriminate.
  - cbn. discriminate.
  - destruct (Js.truthy (reportUrl (view w))); cbn; exact Hinv.
Qed.

(** X2.  The Vue 3 view never loads over results.  Start it in a state
    that is blank if it is loading (the mounted state is one); then after
    any sequence of events, overlapping uploads included, whenever the
    loading flag is set the four result cells are [null], so the loading
    indicator is never shown together with a chart, a word cloud, an emoji
    cloud or the sentiment block. *)
Theorem vue3_blank_while_loading (es : list ui_event) (w : World) :
  (loading (view w) = true -> blank (view w)) ->
  let w' := snd (FrontendV3.session es w) in
  loading (view w') = true ->
  blank (view w') /\
  FrontendV3.chartImages w' = None /\
  FrontendV3.wordCloudTabs w' = None /\
  FrontendV3.emojiCloudSection w' = None /\
  FrontendV3.sentimentSection w' = Absent.
Proof.
  cbv zeta. revert w; induction es as [|e es IH]; intros w Hinv.
  - intros Hload. destruct (Hinv Hload) as (Ha & Hs & He & Hr).
    split; [repeat split; assumption|].
    unfold FrontendV3.chartImages, FrontendV3.wordCloudTabs,
      FrontendV3.emojiCloudSection, FrontendV3.sentimentSection.
    cbn [FrontendV3.session ret snd]. rewrite Ha. repeat split.
  - rewrite session_cons_v3. apply IH. apply dispatch_blank_while_loading, Hinv.
Qed.

(** X2 at a second file offered while the first upload is in flight,
    after results had been shown. *)
Lemma vue3_blank_while_loading_witness :
  FrontendV3.chartImages
    (snd (FrontendV3.session
            [Offered Sample.csv; Settled (Responded Sample.ok); Offered Sample.csv;
             Offered Sample.csv_untyped; Settled (Failed "Network Error")
             ; Offered Sample.csv]
            (FrontendV3.main [])))
  = None.
Proof.
  apply (@vue3_blank_while_loading
           [Offered Sample.csv; Settled (Responded Sample.ok); Offered Sample.csv;
            Offered Sample.csv_untyped; Settled (Failed "Network Error")
            ; Offered Sample.csv]
           (FrontendV3.main [])).
  - discriminate.
  - reflexivity.
Defined.

(** X3.  An accepted upload that brings no results, because the request
    fails or because the response's [success] is falsy, leaves the Vue 3
    view idle and blank whatever it showed before, and leaves the Vue 2
    view idle with everything it showed before. *)
Theorem fruitless_upload_returns_to_idle
    (file : RawFile.t) (o : outcome) (w : World) :
  is_csv file -> fruitless o ->
  view (snd (FrontendV3.session [Offered file; Settled o] w)) = initial_view /\
  view (snd (Frontend.session [Offered file; Settled o] w)) = view (with_loading w false).
Proof.
  intros Hcsv Ho.
  rewrite session_cons_v2, session_cons_v3, session_cons_v2, session_cons_v3.
  cbn [Frontend.session FrontendV3.session ret snd Frontend.dispatch FrontendV3.dispatch].
  assert (H2 : snd (Frontend.upload file w)
               = after_effect (with_loading w true)
                   (UploadRequest (baseURL w ++ "/api/upload") file)).
  { unfold Frontend.upload, bind. now rewrite (beforeUpload_accepts_v2 w Hcsv). }
  assert (H3 : view (snd (FrontendV3.upload file w))
               = {| loading := true; analysisResults := null; sentimentResults := null;
                    emojiCloudData := null; reportUrl := null |}).
  { unfold FrontendV3.upload, bind. now rewrite (beforeUpload_accepts_v3 w Hcsv). }
  revert H2 H3.
  generalize (snd (Frontend.upload file w)), (snd (FrontendV3.upload file w)).
  intros w2 w3 -> H3.
  destruct o as [response|err]; unfold Frontend.settle, FrontendV3.settle.
  - cbn in Ho.
    destruct (handleUploadSuccess_reports response w3 Ho) as [_ ->].
    destruct (handleUploadSuccess_reports
                response
                (after_effect (with_loading w true)
                   (UploadRequest (baseURL w ++ "/api/upload") file)) Ho) as [-> _].
    cbn. rewrite H3. split; reflexivity.
  - run. rewrite H3. split; reflexivity.
Qed.

(** X3 at a CSV whose analysis the backend refuses, offered to views that
    show earlier results. *)
Lemma fruitless_upload_returns_to_idle_witness :
  view (snd (FrontendV3.session [Offered Sample.csv; Settled (Responded Sample.failed)]
               (Sample.showing "http://localhost:8082")))
  = initial_view
  /\ view (snd (Frontend.session [Offered Sample.csv; Settled (Responded Sample.failed)]
                  (Sample.showing "http://localhost:8082")))
     = view (with_loading (Sample.showing "http://localhost:8082") false).
Proof.
  apply (@fruitless_upload_returns_to_idle Sample.csv (Responded Sample.failed)
           (Sample.showing "http://localhost:8082")).
  - left. reflexivity.
  - reflexivity.
Defined.

(** X4.  The last successful response wins.  Whatever happened before
    it, uploads still in flight and results of other files included, a
    response whose [success] is truthy leaves the view idle with exactly
    that response's [data], [sentiment], emoji object and [report_url]
    stored; nothing of the earlier results survives. *)
Theorem last_successful_response_wins
    (es : list ui_event) (response : Response.t) (w : World) :
  Js.truthy (Response.success response) = true ->
  let shown := {| loading := false;
                  analysisResults := Response.data response;
                  sentimentResults := Response.sentiment response;
                  emojiCloudData := Js.or (Response.emoji_clouds response)
                                          (Response.emoji_symbol_cloud response);
                  reportUrl := Response.report_url response |} in
  view (snd (Frontend.session (es ++ [Settled (Responded response)]) w)) = shown /\
  view (snd (FrontendV3.session (es ++ [Settled (Responded response)]) w)) = shown.
Proof.
  intros Hok. cbv zeta.
  rewrite session_app_v2, session_app_v3, session_cons_v2, session_cons_v3.
  cbn [Frontend.session FrontendV3.session ret snd Frontend.dispatch FrontendV3.dispatch
       Frontend.settle FrontendV3.settle].
  destruct (handleUploadSuccess_stores response (snd (Frontend.session es w)) Hok)
    as [-> _].
  destruct (handleUploadSuccess_stores response (snd (FrontendV3.session es w)) Hok)
    as [_ ->].
  split; reflexivity.
Qed.

(** X4 at two uploads in flight whose responses arrive in turn. *)
Lemma last_successful_response_wins_witness :
  analysisResults
    (view (snd (Frontend.session
                  ([Offered Sample.csv; Offered Sample.csv_untyped;
                    Settled (Responded Sample.ok_symbol_cloud)]
                   ++ [Settled (Responded Sample.ok_no_data)])
                  (Frontend.main []))))
  = null.
Proof.
  apply (f_equal analysisResults
           (proj1 (@last_successful_response_wins
                     [Offered Sample.csv; Offered Sample.csv_untyped;
                      Settled (Responded Sample.ok_symbol_cloud)]
                     Sample.ok_no_data (Frontend.main []) eq_refl))).
Defined.

(* ================================================================== *)
(** ** The results block *)
(* ================================================================== *)



(** X6.  A successful response with [data] but without [sentiment]: the
    Vue 3 view leaves the sentiment block out, while the Vue 2 template,
    which has no guard on the block, reads a property of the missing
    object and its evaluation ends in a TypeError.  With a [sentiment]
    both views show the block: the radar chart by [getImageUrl] and the
    summary, blank when it is missing. *)
Theorem sentiment_block_guarded_in_vue3_only (response : Response.t) (w : World) :
  Js.truthy (Response.success response) = true ->
  Js.truthy (Response.data response) = true ->
  let w2 := snd (Frontend.handleUploadSuccess response w) in
  let w3 := snd (FrontendV3.handleUploadSuccess response w) in
  (Js.truthy (Response.sentiment response) = false ->
     FrontendV3.sentimentSection w3 = Absent /\
     Frontend.sentimentSection w2 = TypeError) /\
  (forall s, Response.sentiment response = val s ->
     let pane := {| radar_src := fst (Frontend.getImageUrl (Sentiment.radar_chart s) w);
                    summary_text := match Sentiment.summary s with
                                    | val text => text
                                    | _ => ""
                                    end |} in
     FrontendV3.sentimentSection w3 = Shown pane /\
     Frontend.sentimentSection w2 = Shown pane).
Proof.
  intros Hok Hdata. cbv zeta.
  destruct (handleUploadSuccess_stores response w Hok) as [-> ->]. cbn [snd].
  unfold Frontend.sentimentSection, FrontendV3.sentimentSection, stored.
  cbn [view analysisResults sentimentResults]. rewrite Hdata. split.
  - destruct (Response.sentiment response); [split; reflexivity.. | discriminate].
  - intros s ->. run.
    destruct (Js.truthy (Sentiment.radar_chart s)); split; reflexivity.
Qed.

(** X6 at a response that has everything but a sentiment. *)
Lemma sentiment_block_guarded_in_vue3_only_witness :
  FrontendV3.sentimentSection
    (snd (FrontendV3.handleUploadSuccess
            (Response.make (val true) (val Sample.data) undefined undefined undefined
               undefined undefined)
            (FrontendV3.main [])))
  = Absent
  /\ Frontend.sentimentSection
       (snd (Frontend.handleUploadSuccess
               (Response.make (val true) (val Sample.data) undefined undefined undefined
                  undefined undefined)
               (FrontendV3.main [])))
     = TypeError.
Proof.
  apply (proj1 (@sentiment_block_guarded_in_vue3_only
                  (Response.make (val true) (val Sample.data) undefined undefined
                     undefined undefined undefined)
                  (FrontendV3.main []) eq_refl eq_refl)).
  reflexivity.
Defined.

(** The four URL builders stay under the base URL. *)
Lemma url_under_base (path : nullable string) (w : World) :
  under_base w (fst (Frontend.getImageUrl path w)) /\
  under_base w (fst (Frontend.getWordCloudUrl path w)) /\
  under_base w (fst (FrontendV3.getImageUrl path w)) /\
  under_base w (fst (FrontendV3.getWordCloudUrl path w)).
Proof.
  unfold under_base. run.
  destruct (Js.truthy path) eqn:Hp; cbn.
  - apply truthy_string_true in Hp. destruct Hp as (s & -> & Hne). cbn.
    repeat split; right; exists s; split; trivial.
  - repeat split; now left.
Qed.

(** X7.  Whatever paths the backend sent, every image and frame of the
    results block (the three charts, the word-cloud tabs, the emoji
    clouds, the radar chart), in both views, has either no source or the
    base URL, ['/'] and a non-empty path as its source. *)
Theorem result_sources_under_base (w : World) :
  (forall frames,
     Frontend.chartImages w = Some frames \/ Frontend.wordCloudTabs w = Some frames \/
     FrontendV3.chartImages w = Some frames \/ FrontendV3.wordCloudTabs w = Some frames ->
     Forall (fun f => under_base w (frame_src f)) frames) /\
  (forall panes,
     Frontend.emojiCloudSection w = Some panes \/
     FrontendV3.emojiCloudSection w = Some panes ->
     Forall (fun p => under_base w (pane_src p)) panes) /\
  (forall pane,
     Frontend.sentimentSection w = Shown pane \/
     FrontendV3.sentimentSection w = Shown pane ->
     under_base w (radar_src pane)).
Proof.
  assert (Hframes : forall frames,
             FrontendV3.chartImages w = Some frames \/
             FrontendV3.wordCloudTabs w = Some frames ->
             Forall (fun f => under_base w (frame_src f)) frames).
  { intros frames H.
    unfold FrontendV3.chartImages, FrontendV3.wordCloudTabs in H.
    destruct (analysisResults (view w)) as [| |d];
      try (destruct H as [H|H]; discriminate).
    destruct (Js.truthy (WordCloud.french (AnalysisData.word_cloud d)));
      destruct H as [H|H]; injection H as <-;
      repeat (apply Forall_cons; [cbn [frame_src]; apply url_under_base|]);
      apply Forall_nil. }
  assert (Hpanes : forall panes,
             FrontendV3.emojiCloudSection w = Some panes ->
             Forall (fun p => under_base w (pane_src p)) panes).
  { intros panes H'. unfold FrontendV3.emojiCloudSection in H'.
    destruct (Js.truthy (analysisResults (view w))); [|discriminate].
    destruct (emojiCloudData (view w)) as [| |e]; try discriminate.
    destruct (Js.truthy (EmojiClouds.sender e)), (Js.truthy (EmojiClouds.receiver e));
      cbn [orb app] in H'; try discriminate; injection H' as <-;
      repeat (apply Forall_cons; [cbn [pane_src]; apply url_under_base|]);
      apply Forall_nil. }
  destruct (fragments_vue2 (fun _ => "") w) as (_ & Hc & Ht).
  split; [|split].
  - intros frames H. rewrite Hc, Ht in H.
    destruct (Frontend.render_throws w).
    + apply Hframes. destruct H as [H|[H|[H|H]]]; try discriminate; auto.
    + apply Hframes. destruct H as [H|[H|[H|H]]]; auto.
  - intros panes H. rewrite emojiCloudSection_vue2 in H.
    apply Hpanes. destruct (Frontend.render_throws w);
      destruct H as [H|H]; try discriminate; exact H.
  - intros pane H.
    unfold Frontend.sentimentSection, FrontendV3.sentimentSection in H.
    destruct (Js.truthy (analysisResults (view w))); [|destruct H; discriminate].
    destruct (sentimentResults (view w)) as [| |s]; try (destruct H; discriminate).
    destruct H as [H|H]; injection H as <-; cbn [radar_src]; apply url_under_base.
Qed.

(** X7 at the charts of a shown analysis. *)
Lemma result_sources_under_base_witness :
  Forall (fun f => under_base (Sample.showing "http://localhost:8082") (frame_src f))
    [ {| frame_label := "Monthly Messages";
         frame_src := "http://localhost:8082/static/charts/monthly.png" |};
      {| frame_label := "Hourly Messages";
         frame_src := "http://localhost:8082/static/charts/hourly.png" |};
      {| frame_label := "Chat Frequency Heatmap";
         frame_src := "http://localhost:8082/static/charts/heatmap.png" |} ].
Proof.
  apply (proj1 (result_sources_under_base (Sample.showing "http://localhost:8082"))).
  left. reflexivity.
Defined.

(* ================================================================== *)
(** ** The connectivity probe *)
(* ================================================================== *)

(** After [|| error.message] the guarded reads of [App.vue] and the
    optional chain of the Vue 3 code give the same text. *)
Lemma error_text_same (error : RequestError.t) :
  Js.or (Js.and_then (Js.and_then (RequestError.response error) ErrorResponse.data)
                     ErrorData.error)
        (RequestError.message error)
  = Js.or (server_error error) (RequestError.message error)
  /\
  Js.or (Js.chain (Js.chain (RequestError.response error) ErrorResponse.data)
                  ErrorData.error)
        (RequestError.message error)
  = Js.or (server_error error) (RequestError.message error).
Proof.
  unfold server_error.
  destruct (RequestError.response error) as [| |r]; cbn; try (split; reflexivity).
  destruct (ErrorResponse.data r) as [| |d]; cbn; split; reflexivity.
Qed.

(** X8.  The three probes ([testBackend] of [App.vue], [testBackend] of
    the Vue 3 view, [testBackendConnection] of [services/api.ts]) issue
    one request each and show the same single notification for every way
    the request can end.  A response with a body is reported as a success
    with the body's [message] (the text 'undefined' when there is none); a
    response without a body is reported as a failed connection, with the
    engine's TypeError text; a rejection is reported with the error text
    of the server's answer when there is a non-empty one, and with the
    error's own [message] otherwise. *)
Theorem probes_agree (type_error_message : string) (w : World) (o : probe_outcome) :
  exists shown,
    notifications (Frontend.App.testBackend type_error_message w o) = [shown] /\
    notifications (FrontendV3.testBackend type_error_message w o) = [shown] /\
    notifications (FrontendV3.Api.testBackendConnection type_error_message o) = [shown] /\
    gets (Frontend.App.testBackend type_error_message w o) = [(baseURL w, "/api/test")] /\
    gets (FrontendV3.testBackend type_error_message w o) = [(baseURL w, "/api/test")] /\
    gets (FrontendV3.Api.testBackendConnection type_error_message o)
    = [("http://localhost:8082/api", "/test")] /\
    (forall d, o = Resolved (val d) ->
       shown = MessageSuccess ("Successfully connected to backend: "
                               ++ Js.to_string (TestData.message d))) /\
    (o = Resolved undefined \/ o = Resolved null ->
       shown = MessageError ("Connection failed: " ++ type_error_message)) /\
    (forall error, o = Rejected error ->
       (forall s, server_error error = val s -> s <> "" ->
          shown = MessageError ("Connection failed: " ++ s)) /\
       (Js.truthy (server_error error) = false ->
          shown = MessageError ("Connection failed: "
                                ++ Js.to_string (RequestError.message error)))).
Proof.
  unfold Frontend.App.testBackend, FrontendV3.testBackend,
    FrontendV3.Api.testBackendConnection.
  destruct o as [[| |d]|error]; cbn [notifications gets].
  - eexists. repeat (split; [reflexivity|]).
    split; [discriminate|]. split; [|discriminate].
    intros _.
    destruct (Js.truthy (val type_error_message)) eqn:Ht.
    + cbn. unfold Js.or. cbn [Js.truthy]. reflexivity.
    + apply truthy_string_false in Ht. destruct Ht as [Ht|[Ht|Ht]]; try discriminate.
      injection Ht as ->. reflexivity.
  - eexists. repeat (split; [reflexivity|]).
    split; [discriminate|]. split; [|discriminate].
    intros _.
    destruct (Js.truthy (val type_error_message)) eqn:Ht.
    + cbn. unfold Js.or. cbn [Js.truthy]. reflexivity.
    + apply truthy_string_false in Ht. destruct Ht as [Ht|[Ht|Ht]]; try discriminate.
      injection Ht as ->. reflexivity.
  - eexists. repeat (split; [reflexivity|]).
    split; [|split; [intros [H|H]; discriminate | discriminate]].
    intros d' Hd. now injection Hd as <-.
  - destruct (error_text_same error) as [-> ->].
    eexists. repeat (split; [reflexivity|]).
    split; [discriminate|]. split; [intros [H|H]; discriminate|].
    intros error' He. injection He as <-. split.
    + intros s -> Hne. unfold Js.or. now rewrite (truthy_val_nonempty Hne).
    + intros Hf. unfold Js.or. now rewrite Hf.
Qed.

(** X8 at a server that answers 500 with an error text, and at one that
    is not reachable. *)
Lemma probes_agree_witness :
  notifications
    (FrontendV3.testBackend "Cannot read properties of undefined" (FrontendV3.main [])
       (Rejected (RequestError.make
                    (val (ErrorResponse.make (val (ErrorData.make (val "Database down")))))
                    (val "Request failed with status code 500"))))
  = [MessageError "Connection failed: Database down"]
  /\ notifications
       (Frontend.App.testBackend "Cannot read properties of undefined" (Frontend.main [])
          (Rejected (RequestError.make undefined (val "Network Error"))))
     = [MessageError "Connection failed: Network Error"].
Proof.
  split.
  - destruct (probes_agree "Cannot read properties of undefined" (FrontendV3.main [])
                (Rejected (RequestError.make
                             (val (ErrorResponse.make
                                     (val (ErrorData.make (val "Database down")))))
                             (val "Request failed with status code 500"))))
      as (shown & _ & H3 & _ & _ & _ & _ & _ & _ & Hrej).
    rewrite H3. f_equal.
    apply (proj1 (Hrej _ eq_refl) "Database down").
    + reflexivity.
    + discriminate.
  - destruct (probes_agree "Cannot read properties of undefined" (Frontend.main [])
                (Rejected (RequestError.make undefined (val "Network Error"))))
      as (shown & H2 & _ & _ & _ & _ & _ & _ & _ & Hrej).
    rewrite H2. f_equal.
    apply (proj2 (Hrej _ eq_refl)). reflexivity.
Defined.

(* ================================================================== *)
(** ** Configuration and the file test, at their edges *)
(* ================================================================== *)

(** X9.  The base URL of the Vue 2 application is never empty: it is the
    value of [VUE_APP_API_URL] when the variable is set to a non-empty
    string, and [http://localhost:8082] when the variable is not set or
    is set to the empty string.  The mounted view posts its uploads to
    that URL followed by [/api/upload]. *)
Theorem vue2_base_url_never_empty (env : Env) :
  Frontend.API_BASE_URL env <> "" /\
  (forall v, getenv env "VUE_APP_API_URL" = val v -> v <> "" ->
     Frontend.API_BASE_URL env = v) /\
  (getenv env "VUE_APP_API_URL" = undefined \/ getenv env "VUE_APP_API_URL" = val "" ->
     Frontend.API_BASE_URL env = "http://localhost:8082") /\
  getenv env "VUE_APP_API_URL" <> null /\
  fst (Frontend.uploadAction (Frontend.main env))
  = Frontend.API_BASE_URL env ++ "/api/upload".
Proof.
  split; [|split; [|split; [|split]]].
  - unfold Frontend.API_BASE_URL.
    destruct (getenv env "VUE_APP_API_URL") as [| |v]; cbn; try discriminate.
    unfold to_boolean, Truthy_string.
    destruct (String.eqb_spec v "") as [->|Hne]; cbn; [discriminate | exact Hne].
  - apply API_BASE_URL_from_env.
  - intros H. apply API_BASE_URL_from_env, truthy_string_false. tauto.
  - induction env as [|[k v] env IH]; cbn; [discriminate|].
    destruct (k =? "VUE_APP_API_URL"); [discriminate | exact IH].
  - reflexivity.
Qed.

(** X9 at a build whose variable is set, but empty. *)
Lemma vue2_base_url_never_empty_witness :
  Frontend.API_BASE_URL [("VUE_APP_API_URL", "")] = "http://localhost:8082".
Proof.
  apply (proj1 (proj2 (proj2 (vue2_base_url_never_empty [("VUE_APP_API_URL", "")])))).
  right. reflexivity.
Defined.

(** The suffix test on a name whose last four characters are known. *)
Lemma endsWith_extension (stem ext : string) :
  String.length ext = 4 ->
  Js.endsWith (stem ++ ext) ".csv" = (ext =? ".csv").
Proof.
  intros Hlen. unfold Js.endsWith. rewrite length_app, Hlen.
  cbn [String.length].
  replace (4 <=? String.length stem + 4)%nat with true
    by (symmetry; apply Nat.leb_le; lia).
  replace (String.length stem + 4 - 4) with (String.length stem) by lia.
  rewrite <- Hlen at 1. now rewrite substring_after.
Qed.

(** X10.  The name test is exact and case-sensitive.  For a file whose
    MIME type is not ['text/csv'] (as when the browser reports none, or
    another one), both views accept the file exactly when the last four
    characters of its name are ['.csv'] in lower case; a name shorter
    than four characters is rejected. *)
Theorem extension_test_is_exact
    (mime stem ext short : string) (w : World) :
  mime <> "text/csv" -> String.length ext = 4 -> String.length short < 4 ->
  (fst (Frontend.beforeUpload (RawFile.make mime (stem ++ ext)) w) = true
   <-> ext = ".csv") /\
  (fst (FrontendV3.beforeUpload (RawFile.make mime (stem ++ ext)) w) = true
   <-> ext = ".csv") /\
  fst (Frontend.beforeUpload (RawFile.make mime short) w) = false /\
  fst (FrontendV3.beforeUpload (RawFile.make mime short) w) = false.
Proof.
  intros Hmime Hext Hshort.
  apply String.eqb_neq in Hmime.
  assert (Hs : Js.endsWith short ".csv" = false).
  { unfold Js.endsWith. cbn [String.length].
    now replace (4 <=? String.length short)%nat with false
      by (symmetry; apply Nat.leb_gt; exact Hshort). }
  run. cbn [RawFile.type RawFile.name].
  rewrite Hmime, Hs, (@endsWith_extension stem ext Hext). cbn [orb].
  rewrite <- String.eqb_eq.
  destruct (ext =? ".csv"); cbn; repeat split; trivial; discriminate.
Qed.

(** X10 at an export named in capitals, of a type spreadsheet programs
    register for CSV files. *)
Lemma extension_test_is_exact_witness :
  ~ fst (FrontendV3.beforeUpload
           (RawFile.make "application/vnd.ms-excel" ("CHAT" ++ ".CSV"))
           (FrontendV3.main [])) = true.
Proof.
  intros H.
  apply (proj1 (proj2 (@extension_test_is_exact
                         "application/vnd.ms-excel" "CHAT" ".CSV" "csv"
                         (FrontendV3.main [])
                         ltac:(discriminate) eq_refl ltac:(cbn; lia)))) in H.
  discriminate H.
Defined.

(* ================================================================== *)
(** ** The daily average, printed *)
(* ================================================================== *)

Lemma length_substring (s : string) (n m : nat) :
  n + m <= String.length s -> String.length (substring n m s) = m.
Proof.
  revert n m; induction s as [|c s IH]; intros n m H; cbn in H.
  - assert (n = 0) by lia. assert (m = 0) by lia. subst. reflexivity.
  - destruct n as [|n]; [destruct m as [|m]|]; cbn.
    + reflexivity.
    + f_equal. apply IH. lia.
    + apply IH. lia.
Qed.

Lemma length_zeros (k : nat) : String.length (Js.zeros k) = k.
Proof. induction k as [|k IH]; cbn; [reflexivity | now rewrite IH]. Qed.

(** With at least one fraction digit asked for, the fixed notation is an
    integer part of at least one character, a point, and as many
    characters as asked for. *)
Lemma fixed_point_shape (n : N) (f : nat) :
  exists a b,
    Js.fixed_point n (S f) = a ++ "." ++ b /\
    1 <= String.length a /\ String.length b = S f.
Proof.
  unfold Js.fixed_point.
  set (m := Js.digits n).
  set (m' := if (String.length m <=? S f)%nat
             then Js.zeros (S f + 1 - String.length m) ++ m else m).
  assert (Hlen : S f + 1 <= String.length m').
  { subst m'. destruct (Nat.leb_spec (String.length m) (S f)) as [Hle|Hgt].
    - rewrite length_app, length_zeros. lia.
    - lia. }
  exists (substring 0 (String.length m' - S f) m'),
         (substring (String.length m' - S f) (S f) m').
  split; [reflexivity|]. split.
  - rewrite length_substring; lia.
  - apply length_substring. lia.
Qed.

(** X11.  Whenever the quotient of [total_messages] by [total_days] is a
    zero or a finite number below 10^21 in magnitude, the daily average
    is printed with exactly two characters after the point and at least
    one before it, preceded by a minus sign at most: by the Vue 3 view for
    every stored analysis, by the Vue 2 view for every stored analysis
    that comes with a sentiment object. *)
Theorem daily_average_has_two_decimals
    (number_to_string : Js.number -> string) (w : World) (d : AnalysisData.t) :
  analysisResults (view w) = val d ->
  fixed_range (Js.div (TimeAnalysis.total_messages (AnalysisData.time_analysis d))
                      (TimeAnalysis.total_days (AnalysisData.time_analysis d))) ->
  exists sign a b,
    (sign = "" \/ sign = "-") /\
    1 <= String.length a /\ String.length b = 2 /\
    FrontendV3.dailyAverage number_to_string w
    = Some ("Daily average: " ++ (sign ++ a ++ "." ++ b) ++ " messages/day") /\
    (forall s, sentimentResults (view w) = val s ->
       Frontend.dailyAverage number_to_string w
       = Some ("Daily average: " ++ (sign ++ a ++ "." ++ b) ++ " messages/day")).
Proof.
  intros Hd Hq.
  rewrite (proj1 (fragments_vue2 number_to_string w)).
  unfold FrontendV3.dailyAverage. rewrite Hd.
  destruct (Js.div (TimeAnalysis.total_messages (AnalysisData.time_analysis d))
                   (TimeAnalysis.total_days (AnalysisData.time_analysis d)))
    as [s|s| |s m e]; cbn in Hq; try contradiction.
  - destruct (fixed_point_shape 0 1) as (a & b & Hab & Ha & Hb).
    exists "", a, b. unfold Js.toFixed. rewrite Hab.
    repeat (split; [auto|]).
    intros s' Hs. now rewrite (render_with_sentiment w Hs).
  - destruct (fixed_point_shape (Z.to_N (Js.nearest_scaled m e 2)) 1)
      as (a & b & Hab & Ha & Hb).
    exists (if s then "-" else ""), a, b. unfold Js.toFixed. rewrite Hq, Hab.
    split; [destruct s; auto|]. repeat (split; [auto|]).
    intros s' Hs. now rewrite (render_with_sentiment w Hs).
Qed.

(** X11 at twenty-five messages in ten days. *)
Lemma daily_average_has_two_decimals_witness :
  exists sign a b,
    (sign = "" \/ sign = "-") /\
    1 <= String.length a /\ String.length b = 2 /\
    FrontendV3.dailyAverage (fun _ => "") (Sample.showing "http://localhost:8082")
    = Some ("Daily average: " ++ (sign ++ a ++ "." ++ b) ++ " messages/day") /\
    Frontend.dailyAverage (fun _ => "") (Sample.showing "http://localhost:8082")
    = Some ("Daily average: " ++ (sign ++ a ++ "." ++ b) ++ " messages/day").
Proof.
  destruct (@daily_average_has_two_decimals (fun _ => "")
              (Sample.showing "http://localhost:8082") Sample.data eq_refl)
    as (sign & a & b & Hsign & Ha & Hb & H3 & H2).
  - reflexivity.
  - exists sign, a, b. repeat (split; [assumption|]).
    apply (H2 Sample.sentiment). reflexivity.
Defined.

(** X12.  The daily average at its edges, where it is printed (by the
    Vue 3 view for every stored analysis, by the Vue 2 view for every
    stored analysis that comes with a sentiment object): an analysis
    without messages over a finite, non-zero or an infinite number of
    days prints '0.00', without a sign; an analysis whose
    [total_messages] or [total_days] is not a number prints 'NaN'. *)
Theorem daily_average_without_messages
    (number_to_string : Js.number -> string) (w : World) (d : AnalysisData.t) :
  analysisResults (view w) = val d ->
  let messages := TimeAnalysis.total_messages (AnalysisData.time_analysis d) in
  let days := TimeAnalysis.total_days (AnalysisData.time_analysis d) in
  ((exists s, messages = S754_zero s) ->
   ((exists s m e, days = S754_finite s m e) \/ (exists s, days = S754_infinity s)) ->
   FrontendV3.dailyAverage number_to_string w = Some "Daily average: 0.00 messages/day" /\
   (forall s, sentimentResults (view w) = val s ->
      Frontend.dailyAverage number_to_string w
      = Some "Daily average: 0.00 messages/day")) /\
  (messages = S754_nan \/ days = S754_nan ->
   FrontendV3.dailyAverage number_to_string w = Some "Daily average: NaN messages/day" /\
   (forall s, sentimentResults (view w) = val s ->
      Frontend.dailyAverage number_to_string w
      = Some "Daily average: NaN messages/day")).
Proof.
  intros Hd. cbv zeta.
  rewrite (proj1 (fragments_vue2 number_to_string w)).
  unfold FrontendV3.dailyAverage. rewrite Hd. split.
  - intros [sm ->] [(sd & md & ed & ->)|[sd ->]];
      (split; [reflexivity|]; intros s' Hs; now rewrite (render_with_sentiment w Hs)).
  - intros [->| ->].
    + split; [reflexivity|]. intros s' Hs. now rewrite (render_with_sentiment w Hs).
    + destruct (TimeAnalysis.total_messages (AnalysisData.time_analysis d));
        (split; [reflexivity|]; intros s' Hs; now rewrite (render_with_sentiment w Hs)).
Qed.

(** X12 at an analysis of no message over ten days. *)
Lemma daily_average_without_messages_witness :
  Frontend.dailyAverage (fun _ => "")
    (Sample.showing_data "http://localhost:8082"
       (AnalysisData.make
          (TimeAnalysis.make "2024-01-01" "2024-01-10" (Js.of_Z 10) (Js.of_Z 0)
             undefined undefined)
          undefined Sample.word_cloud))
  = Some "Daily average: 0.00 messages/day".
Proof.
  apply (proj2 (proj1 (@daily_average_without_messages (fun _ => "")
                         (Sample.showing_data "http://localhost:8082"
                            (AnalysisData.make
                               (TimeAnalysis.make "2024-01-01" "2024-01-10"
                                  (Js.of_Z 10) (Js.of_Z 0) undefined undefined)
                               undefined Sample.word_cloud))
                         _ eq_refl)
                  (ex_intro _ false eq_refl)
                  (or_introl (ex_intro _ false
                                (ex_intro _ _ (ex_intro _ _ eq_refl)))))
           Sample.sentiment).
  reflexivity.
Defined.

(* ================================================================== *)
(** ** Stored results, used later *)
(* ================================================================== *)

(** [downloadReport] on a stored, non-empty report path. *)
Lemma downloadReport_opens (w : World) (u : string) :
  reportUrl (view w) = val u -> u <> "" ->
  Frontend.downloadReport w
  = (tt, after_effect w (WindowOpen (baseURL w ++ u) "_blank")) /\
  FrontendV3.downloadReport w
  = (tt, after_effect w (WindowOpen (baseURL w ++ u) "_blank")).
Proof.
  intros Hu Hne. run. rewrite Hu, (truthy_val_nonempty Hne). split; reflexivity.
Qed.

(** X13.  The report offered for download is the one of the last stored
    response, until the Vue 3 view forgets it.  After a successful
    response with a non-empty [report_url], a click on the download
    button opens the base URL followed by that path, in both views.  Once
    another CSV has been accepted and is still uploading, the same click
    shows 'Report not available' in the Vue 3 view, and still opens the
    earlier report in the Vue 2 view. *)
Theorem download_follows_stored_report
    (response : Response.t) (u : string) (file : RawFile.t) (w : World) :
  Js.truthy (Response.success response) = true ->
  Response.report_url response = val u -> u <> "" ->
  is_csv file ->
  let arrived := [Settled (Responded response)] in
  let reloading := [Settled (Responded response); Offered file] in
  (forall w2 w3,
     w2 = snd (Frontend.session arrived w) ->
     w3 = snd (FrontendV3.session arrived w) ->
     Frontend.downloadReport w2
     = (tt, after_effect w2 (WindowOpen (baseURL w ++ u) "_blank")) /\
     FrontendV3.downloadReport w3
     = (tt, after_effect w3 (WindowOpen (baseURL w ++ u) "_blank"))) /\
  (forall w2 w3,
     w2 = snd (Frontend.session reloading w) ->
     w3 = snd (FrontendV3.session reloading w) ->
     Frontend.downloadReport w2
     = (tt, after_effect w2 (WindowOpen (baseURL w ++ u) "_blank")) /\
     FrontendV3.downloadReport w3
     = (tt, after_effect w3 (MessageError "Report not available"))).
Proof.
  intros Hok Hurl Hne Hcsv. cbv zeta.
  assert (Hs2 : snd (Frontend.session [Settled (Responded response)] w)
                = stored response w).
  { rewrite session_cons_v2. cbn [Frontend.session ret snd Frontend.dispatch Frontend.settle].
    now rewrite (proj1 (handleUploadSuccess_stores response w Hok)). }
  assert (Hs3 : snd (FrontendV3.session [Settled (Responded response)] w)
                = stored response w).
  { rewrite session_cons_v3.
    cbn [FrontendV3.session ret snd FrontendV3.dispatch FrontendV3.settle].
    now rewrite (proj2 (handleUploadSuccess_stores response w Hok)). }
  split.
  - intros w2 w3 -> ->. rewrite Hs2, Hs3.
    apply (@downloadReport_opens (stored response w) u); assumption.
  - intros w2 w3 -> ->.
    change [Settled (Responded response); Offered file]
      with ([Settled (Responded response)] ++ [Offered file])%list.
    rewrite session_app_v2, session_app_v3, Hs2, Hs3, session_cons_v2, session_cons_v3.
    cbn [Frontend.session FrontendV3.session ret snd Frontend.dispatch FrontendV3.dispatch].
    unfold Frontend.upload, FrontendV3.upload, bind.
    rewrite (beforeUpload_accepts_v2 (stored response w) Hcsv),
            (beforeUpload_accepts_v3 (stored response w) Hcsv).
    run. unfold with_loading, stored.
    cbn [view reportUrl baseURL snd Js.truthy].
    rewrite Hurl, (truthy_val_nonempty Hne).
    split; reflexivity.
Qed.

(** X13 at a second CSV offered while the report of the first is
    stored. *)
Lemma download_follows_stored_report_witness :
  FrontendV3.downloadReport
    (snd (FrontendV3.session [Settled (Responded Sample.ok); Offered Sample.csv]
            (FrontendV3.main [])))
  = (tt, after_effect
           (snd (FrontendV3.session [Settled (Responded Sample.ok); Offered Sample.csv]
                   (FrontendV3.main [])))
           (MessageError "Report not available"))
  /\ effects (snd (Frontend.downloadReport
                     (snd (Frontend.session
                             [Settled (Responded Sample.ok); Offered Sample.csv]
                             (Frontend.main [])))))
     = [ MessageSuccess "Analysis completed!";
         UploadRequest "http://localhost:8082/api/upload" Sample.csv;
         WindowOpen "http://localhost:8082/api/reports/report.pdf" "_blank" ].
Proof.
  assert (Hcsv : is_csv Sample.csv) by (left; reflexivity).
  assert (Hne : "/api/reports/report.pdf" <> "") by discriminate.
  split.
  - apply (proj2 (@download_follows_stored_report Sample.ok "/api/reports/report.pdf"
                    Sample.csv (FrontendV3.main []) eq_refl eq_refl Hne Hcsv)
             _ _ eq_refl eq_refl).
  - rewrite (proj1 (proj2 (@download_follows_stored_report Sample.ok
                             "/api/reports/report.pdf" Sample.csv (Frontend.main [])
                             eq_refl eq_refl Hne Hcsv)
                      _ _ eq_refl eq_refl)).
    reflexivity.
Defined.


